(** * HTTPie sessions ([httpie/sessions.py]): a shallow embedding

    The module persists headers, cookies and the authentication choice of a
    named, host-bound session.  Python values are embedded as an inductive
    type [Any]; [str] is embedded as [string] (a byte string, so the case
    conversions below are the ASCII ones); a Python [dict] is an
    insertion-ordered association list; mutation of the session object is
    explicit state passing through a small state-and-exception monad. *)

From Stdlib Require Import ZArith Ascii String List Bool Lia.
From stdpp Require Import base tactics option list strings.
Import ListNotations.

Local Open Scope string_scope.
Local Open Scope list_scope.
Local Set Warnings "-register-all".

(** ** Python [str] operations *)

Module Str.

(** [c.lower()] on one ASCII character. *)
Definition lower_ascii (c : ascii) : ascii :=
  let n := nat_of_ascii c in
  if (65 <=? n)%nat && (n <=? 90)%nat then ascii_of_nat (n + 32) else c.

(** [s.lower()]. *)
Fixpoint lower (s : string) : string :=
  match s with
  | EmptyString => EmptyString
  | String c s' => String (lower_ascii c) (lower s')
  end.

(** [s.startswith(p)]. *)
Definition startswith (s p : string) : bool := String.prefix p s.

(** [sub in s]. *)
Fixpoint contains (sub s : string) : bool :=
  String.prefix sub s ||
  match s with
  | EmptyString => false
  | String _ s' => contains sub s'
  end.

(** [s.replace(a, b)] for one-character [a] and [b]. *)
Fixpoint replace (a b : ascii) (s : string) : string :=
  match s with
  | EmptyString => EmptyString
  | String c s' => String (if Ascii.eqb c a then b else c) (replace a b s')
  end.

(** [s.split(sep)] for a one-character separator: never empty. *)
Fixpoint split (sep : ascii) (s : string) : list string :=
  match s with
  | EmptyString => [EmptyString]
  | String c s' =>
      if Ascii.eqb c sep then EmptyString :: split sep s'
      else match split sep s' with
           | [] => [String c EmptyString]
           | w :: ws => String c w :: ws
           end
  end.

(** [s.split(sep)[0]]. *)
Definition split_head (sep : ascii) (s : string) : string :=
  hd EmptyString (split sep s).

(** [sep.join(l)]. *)
Fixpoint join (sep : string) (l : list string) : string :=
  match l with
  | [] => ""
  | [w] => w
  | w :: ws => w +:+ sep +:+ join sep ws
  end.

(** [bool(s)]. *)
Definition nonempty (s : string) : bool :=
  match s with EmptyString => false | _ => true end.

End Str.

(** ** Python values *)

(** The values that reach this module: what [json.load] produces, and the
    [bytes] a request header may carry. *)
Inductive Any : Type :=
| None_
| Bool (b : bool)
| Int (z : Z)
| Str (s : string)
| Bytes (b : string)
| List (l : list Any)
| Dict (d : list (string * Any)).

(** A [dict] with [str] keys, in insertion order. *)
Abbreviation dict := (list (string * Any)).

(** [bool(v)]. *)
Definition truthy (v : Any) : bool :=
  match v with
  | None_ => false
  | Bool b => b
  | Int z => negb (z =? 0)%Z
  | Str s | Bytes s => Str.nonempty s
  | List l => match l with [] => false | _ => true end
  | Dict d => match d with [] => false | _ => true end
  end.

(** [isinstance(v, dict)] and [isinstance(v, list)], on the result of
    [data.get(...)] ([None] when the key is absent). *)
Definition isinstance_dict (v : option Any) : bool :=
  match v with Some (Dict _) => true | _ => false end.

Definition isinstance_list (v : option Any) : bool :=
  match v with Some (List _) => true | _ => false end.

Module PyDict.
Section Ops.
Context {V : Type}.

(** [d.get(k)]. *)
Fixpoint get (k : string) (d : list (string * V)) : option V :=
  match d with
  | [] => None
  | (k', v) :: d' => if String.eqb k' k then Some v else get k d'
  end.

(** [d[k] = v]: an existing key keeps its position. *)
Fixpoint set (k : string) (v : V) (d : list (string * V)) : list (string * V) :=
  match d with
  | [] => [(k, v)]
  | (k', v') :: d' =>
      if String.eqb k' k then (k, v) :: d' else (k', v') :: set k v d'
  end.

(** [del d[k]] for a key that may be absent. *)
Fixpoint remove (k : string) (d : list (string * V)) : list (string * V) :=
  match d with
  | [] => []
  | (k', v') :: d' =>
      if String.eqb k' k then remove k d' else (k', v') :: remove k d'
  end.

(** [d.update(e)], also the unpacking [{**d, **e}]. *)
Definition update (d e : list (string * V)) : list (string * V) :=
  fold_left (fun acc kv => set kv.1 kv.2 acc) e d.

(** [d.keys()]. *)
Definition keys (d : list (string * V)) : list string := map fst d.

(** [k in d]. *)
Definition mem (k : string) (d : list (string * V)) : bool :=
  match get k d with Some _ => true | None => false end.

(** The keys of a Python [dict] are pairwise distinct. *)
Definition wf (d : list (string * V)) : Prop := NoDup (keys d).
End Ops.
End PyDict.

(** ** Exceptions *)

Inductive exn := TypeError | AttributeError | KeyError | AssertionError.

Inductive result (A : Type) : Type :=
| Ok (a : A)
| Raise (e : exn).
Arguments Ok {A} a.
Arguments Raise {A} e.

#[global] Instance result_ret : MRet result := @Ok.
#[global] Instance result_bind : MBind result :=
  fun A B f m => match m with Ok a => f a | Raise e => Raise e end.

(** A list comprehension whose body may raise. *)
Fixpoint comprehension {A B : Type} (f : A -> result B) (l : list A)
  : result (list B) :=
  match l with
  | [] => Ok []
  | a :: l' => b ← f a; bs ← comprehension f l'; Ok (b :: bs)
  end.

(** ** [pathlib.Path] (POSIX flavour)

    A path is its root and its components; building one from a string
    drops empty and ["."] components, and joining with an absolute segment
    restarts from that segment. *)
Module Path.
Record t := mk { root : string; parts : list string }.

Definition parse_root (s : string) : string :=
  if Str.startswith s "//" && negb (Str.startswith s "///") then "//"
  else if Str.startswith s "/" then "/" else "".

Definition kept_part (c : string) : bool :=
  negb (String.eqb c "") && negb (String.eqb c ".").

(** [Path(s)]. *)
Definition of_str (s : string) : t :=
  mk (parse_root s) (List.filter kept_part (Str.split "/" s)).

(** [p / seg]. *)
Definition truediv (p : t) (seg : string) : t :=
  let q := of_str seg in
  if Str.nonempty (root q) then q else mk (root p) (parts p ++ parts q).

(** [str(p)]. *)
Definition to_str (p : t) : string :=
  match root p, parts p with
  | EmptyString, [] => "."
  | r, ps => r +:+ Str.join "/" ps
  end.
End Path.

Infix "//" := Path.truediv (at level 40, left associativity).

(** ** Cookies and the cookie jar *)

(** [http.cookiejar.Cookie], restricted to the attributes this module reads
    ([KEPT_COOKIE_OPTIONS]) and the non-standard attribute dictionary
    [_rest].  The value of a cookie is a [str] or [None]: a cookie a server
    set without a value carries [None]. *)
Module Cookie.
Record t := mk {
  name : string;
  value : option string;
  domain : string;
  path : string;
  expires : option Z;
  secure : bool;
  _rest : dict;
}.

(** [cookie._rest.get('is_explicit_none')], as a condition. *)
Definition is_explicit_none (c : t) : bool :=
  match PyDict.get "is_explicit_none" (_rest c) with
  | Some v => truthy v
  | None => false
  end.
End Cookie.

(** [http.cookies.Morsel], after the conversions [morsel_to_cookie] applies
    to it: [expires] is the absolute expiry time derived from [max-age] or
    [expires], [secure] is [bool(morsel['secure'])]. *)
Module Morsel.
Record t := mk {
  key : string;
  value : string;
  path : string;
  domain : string;
  expires : option Z;
  secure : bool;
  httponly : Any;
}.
End Morsel.

(** Modelled from the spec: the cookie jar ([requests.cookies.RequestsCookieJar])
    is a library class outside the sources.  The spec describes it as an
    ordered collection indexed by (name, domain, path): setting a cookie
    whose key is already present overwrites that entry where it stands, a
    new key is added at the end; a record's path defaults to ["/"].  The
    defaults of the other attributes are those of [requests]'
    [create_cookie].  Setting a name to the value [None] sets nothing: as
    in [requests], it removes the cookies of that name, and of the domain
    and the path when they are given.  Records whose attribute values have
    another type than the [CookieRecord] of the spec are rejected here with
    [TypeError]. *)
Module RequestsCookieJar.
Abbreviation t := (list Cookie.t).

Definition same_key (c c' : Cookie.t) : bool :=
  String.eqb (Cookie.domain c) (Cookie.domain c')
  && String.eqb (Cookie.path c) (Cookie.path c')
  && String.eqb (Cookie.name c) (Cookie.name c').

Fixpoint set_cookie (c : Cookie.t) (jar : t) : t :=
  match jar with
  | [] => [c]
  | c' :: jar' =>
      if same_key c' c then c :: jar' else c' :: set_cookie c jar'
  end.

Definition as_str (v : Any) : result string :=
  match v with Str s => Ok s | _ => Raise TypeError end.

Definition as_bool (v : Any) : result bool :=
  match v with Bool b => Ok b | _ => Raise TypeError end.

Definition as_expires (v : Any) : result (option Z) :=
  match v with
  | None_ => Ok None
  | Int z => Ok (Some z)
  | _ => Raise TypeError
  end.

Definition as_dict (v : Any) : result dict :=
  match v with Dict d => Ok d | _ => Raise TypeError end.

Definition cookie_options : list string :=
  ["domain"; "path"; "expires"; "secure"; "rest"].

Definition create_cookie (name value : string) (kwargs : dict)
  : result Cookie.t :=
  if forallb (fun k => existsb (String.eqb k) cookie_options)
       (PyDict.keys kwargs)
  then
    domain ← as_str (default (Str "") (PyDict.get "domain" kwargs));
    path ← as_str (default (Str "/") (PyDict.get "path" kwargs));
    expires ← as_expires (default None_ (PyDict.get "expires" kwargs));
    secure ← as_bool (default (Bool false) (PyDict.get "secure" kwargs));
    rest ← as_dict (default (Dict [("HttpOnly", None_)])
                      (PyDict.get "rest" kwargs));
    Ok (Cookie.mk name (Some value) domain path expires secure rest)
  else Raise TypeError.

(** Whether a keyword argument of [remove_cookie_by_name], [None] when it
    is not given, lets an attribute of a cookie through. *)
Definition selects (argument : option Any) (attribute : string) : bool :=
  match argument with
  | None | Some None_ => true
  | Some (Str s) => String.eqb s attribute
  | Some _ => false
  end.

(** [cookie.name == name]: a name that is not a string is the name of no
    cookie. *)
Definition named (name : Any) (c : Cookie.t) : bool :=
  match name with
  | Str n => String.eqb (Cookie.name c) n
  | _ => false
  end.
(** [remove_cookie_by_name(jar, name, domain=domain, path=path)]. *)
Definition remove_cookie_by_name (name : Any) (domain path : option Any)
    (jar : t) : t :=
  List.filter
    (fun c => negb (named name c
                    && selects domain (Cookie.domain c)
                    && selects path (Cookie.path c)))
    jar.

(** [jar.set] applied to the unpacked [cookie] dictionary: [name] and
    [value] are the two positional parameters, the other entries are
    keyword arguments.  A value of [None] unsets the name. *)
Definition set (cookie : dict) (jar : t) : result t :=
  let kwargs := PyDict.remove "value" (PyDict.remove "name" cookie) in
  match PyDict.get "name" cookie, PyDict.get "value" cookie with
  | Some name, Some None_ =>
      Ok (remove_cookie_by_name name (PyDict.get "domain" kwargs)
            (PyDict.get "path" kwargs) jar)
  | Some (Str name), Some (Str value) =>
      c ← create_cookie name value kwargs;
      Ok (set_cookie c jar)
  | _, _ => Raise TypeError
  end.

Definition morsel_to_cookie (m : Morsel.t) : Cookie.t :=
  Cookie.mk (Morsel.key m) (Some (Morsel.value m)) (Morsel.domain m)
    (Morsel.path m) (Morsel.expires m) (Morsel.secure m)
    [("HttpOnly", Morsel.httponly m)].

(** [jar.set(name, morsel)]. *)
Definition set_morsel (m : Morsel.t) (jar : t) : t :=
  set_cookie (morsel_to_cookie m) jar.
End RequestsCookieJar.

(** ** Request headers *)

(** The value of a request header: [None] (explicitly unset), [str] or
    [bytes]. *)
Inductive HeaderValue := HNone | HStr (s : string) | HBytes (b : string).

(** [value.decode()] when [type(value) is not str]; the model's strings are
    byte strings, so decoding keeps the text. *)
Definition decode (v : HeaderValue) : string :=
  match v with HNone => "" | HStr s => s | HBytes b => b end.

(** Modelled from the spec: [HTTPHeadersDict] ([httpie/cli/dicts.py], a
    [multidict.CIMultiDict]) is outside the sources.  The spec gives header
    names a case-insensitive identity and a case-preserving storage, and
    lets the incoming map hold several instances of one name.  The
    operations are the ones the module calls, with the meaning they have in
    the multidict library: [items] lists every (name, value) pair in
    insertion order, [getall] returns a new list of the values stored
    under a name, [popall] removes them all, and an assignment replaces the
    first entry of that name and drops its other entries. *)
Module HTTPHeadersDict.
Section Ops.
Context {V : Type}.

Definition same_name (name name' : string) : bool :=
  String.eqb (Str.lower name) (Str.lower name').

Definition getall (name : string) (h : list (string * V)) : list V :=
  map snd (List.filter (fun kv => same_name kv.1 name) h).

Definition popall (name : string) (h : list (string * V)) : list (string * V) :=
  List.filter (fun kv => negb (same_name kv.1 name)) h.

Definition getone (name : string) (h : list (string * V)) : option V :=
  head (getall name h).

Fixpoint setitem (name : string) (v : V) (h : list (string * V))
  : list (string * V) :=
  match h with
  | [] => [(name, v)]
  | (k, v') :: h' =>
      if same_name k name then (name, v) :: popall name h'
      else (k, v') :: setitem name v h'
  end.

(** [HTTPHeadersDict(d)] for a plain [dict]. *)
Definition of_dict (d : list (string * V)) : list (string * V) := d.

(** [dict(h)]: every stored key, bound to the first value of its name. *)
Definition to_dict (h : list (string * V)) : list (string * V) :=
  fold_left
    (fun d k => match getone k h with
                | Some v => PyDict.set k v d
                | None => d
                end)
    (map fst h) [].
End Ops.
End HTTPHeadersDict.

(** ** Module constants *)

(** [os.path.sep], on a POSIX system. *)
Definition os_path_sep : string := "/".
Definition SESSIONS_DIR_NAME : string := "sessions".
Definition SESSION_IGNORED_HEADER_PREFIXES : list string := ["Content-"; "If-"].
Definition KEPT_COOKIE_OPTIONS : list string :=
  ["name"; "expires"; "path"; "value"; "domain"; "secure"].
Definition DEFAULT_COOKIE_PATH : string := "/".

Definition nl : string := String (ascii_of_nat 10) EmptyString.

Definition unlines (l : list string) : string :=
  fold_right (fun line acc => line +:+ nl +:+ acc) "" l.

(** [INSECURE_COOKIE_JAR_WARNING.format(hostname=..., session_id=...)]. *)
Definition INSECURE_COOKIE_JAR_WARNING (hostname session_id : string) : string :=
  unlines [
    "Outdated layout detected for the current session. Please consider updating it,";
    "in order to not get affected by potential security problems.";
    "";
    "For fixing the current session:";
    "";
    "    With binding all cookies to the current host (secure):";
    "        $ httpie cli sessions upgrade --bind-cookies "
      +:+ hostname +:+ " " +:+ session_id;
    "";
    "    Without binding cookies (leaving them as is) (insecure):";
    "        $ httpie cli sessions upgrade " +:+ hostname +:+ " " +:+ session_id
  ].

Definition INSECURE_COOKIE_JAR_WARNING_FOR_NAMED_SESSIONS : string :=
  unlines [
    "";
    "For fixing all named sessions:";
    "";
    "    With binding all cookies to the current host (secure):";
    "        $ httpie cli sessions upgrade-all --bind-cookies";
    "";
    "    Without binding cookies (leaving them as is) (insecure):";
    "        $ httpie cli sessions upgrade-all";
    "";
    "See https://pie.co/docs/security for more information."
  ].

Definition is_anonymous_session (session_name : string) : bool :=
  Str.contains os_path_sep session_name.

(** [getattr(cookie, option)] for the options of [KEPT_COOKIE_OPTIONS]. *)
Definition getattr (cookie : Cookie.t) (option : string) : Any :=
  if String.eqb option "name" then Str (Cookie.name cookie)
  else if String.eqb option "expires" then
    match Cookie.expires cookie with Some z => Int z | None => None_ end
  else if String.eqb option "path" then Str (Cookie.path cookie)
  else if String.eqb option "value" then
    match Cookie.value cookie with Some v => Str v | None => None_ end
  else if String.eqb option "domain" then Str (Cookie.domain cookie)
  else if String.eqb option "secure" then Bool (Cookie.secure cookie)
  else None_.

(** [v == ''] and [v is None]. *)
Definition eq_empty_str (v : Any) : bool :=
  match v with Str EmptyString => true | _ => false end.

Definition is_None (v : Any) : bool :=
  match v with None_ => true | _ => false end.

Definition materialize_cookie (cookie : Cookie.t) : dict :=
  let materialized_cookie :=
    map (fun option => (option, getattr cookie option)) KEPT_COOKIE_OPTIONS in
  if Cookie.is_explicit_none cookie
     && eq_empty_str (default None_ (PyDict.get "domain" materialized_cookie))
  then PyDict.set "domain" None_ materialized_cookie
  else materialized_cookie.

(** ** The session object *)

(** Modelled from the spec: [Environment] ([httpie/context.py]) is outside
    the sources; what this module uses of it is the logging sink
    [log_error(message, level)], fire-and-forget.  The sink is the list of
    the records it received. *)
Record Environment := mkEnvironment { log : list (string * string) }.

Definition log_error (message level : string) (env : Environment) : Environment :=
  mkEnvironment (log env ++ [(message, level)]).

(** The fields [headers], [cookies] and [auth] are the entries
    [self['headers']], [self['cookies']] and [self['auth']] of the
    dictionary the session object is. *)
Record Session := mkSession {
  path : Path.t;
  env : Environment;
  session_id : string;
  bound_host : string;
  refactor_mode : bool;
  cookie_jar : RequestsCookieJar.t;
  headers : list (string * string);
  cookies : Any;
  auth : dict;
}.

Definition with_env (e : Environment) (s : Session) : Session :=
  mkSession (path s) e (session_id s) (bound_host s) (refactor_mode s)
    (cookie_jar s) (headers s) (cookies s) (auth s).

Definition with_cookie_jar (j : RequestsCookieJar.t) (s : Session) : Session :=
  mkSession (path s) (env s) (session_id s) (bound_host s) (refactor_mode s)
    j (headers s) (cookies s) (auth s).

Definition with_headers (h : list (string * string)) (s : Session) : Session :=
  mkSession (path s) (env s) (session_id s) (bound_host s) (refactor_mode s)
    (cookie_jar s) h (cookies s) (auth s).

Definition with_auth (a : dict) (s : Session) : Session :=
  mkSession (path s) (env s) (session_id s) (bound_host s) (refactor_mode s)
    (cookie_jar s) (headers s) (cookies s) a.


(** [Session.__init__]; [path] is a [str] or a [Path]. *)
Definition Session_init (path : string + Path.t) (env : Environment)
    (bound_host session_id : string) (refactor_mode : bool) : Session :=
  {| path := match path with inl p => Path.of_str p | inr p => p end;
     env := env;
     session_id := session_id;
     bound_host := bound_host;
     refactor_mode := refactor_mode;
     cookie_jar := [];
     headers := [];
     cookies := List [];
     auth := [("type", None_); ("username", None_); ("password", None_)] |}.

(** Methods run on the session object: they may change it and may raise. *)
Definition M (A : Type) : Type := Session -> Session * result A.

#[global] Instance M_ret : MRet M := fun A a s => (s, Ok a).
#[global] Instance M_bind : MBind M :=
  fun A B f m s =>
    match m s with
    | (s', Ok a) => f a s'
    | (s', Raise e) => (s', Raise e)
    end.

Definition raise {A : Type} (e : exn) : M A := fun s => (s, Raise e).

Definition lift {A : Type} (r : result A) : M A := fun s => (s, r).

(** ** Loading: [Session.pre_process_data] *)

(** The first [if]/[elif]/[else]: one record per cookie. *)
Definition normalize_cookies (cookies : option Any) : result (list Any) :=
  match cookies with
  | Some (Dict d) =>
      comprehension
        (fun kv => match kv.2 with
                   | Dict value => Ok (Dict (PyDict.update [("name", Str kv.1)] value))
                   | _ => Raise TypeError
                   end) d
  | Some (List l) => Ok l
  | _ => Ok []
  end.

Definition EXPLICIT_NONE : Any := Dict [("is_explicit_none", Bool true)].

(** The body of the [for] loop up to the call of [cookie_jar.set]: the new
    value of [should_issue_warning] and the cookie record as it is then. *)
Definition mark_cookie (from_dict should_issue_warning : bool) (cookie : dict)
  : bool * dict :=
  let domain := default (Str "") (PyDict.get "domain" cookie) in
  if eq_empty_str domain && from_dict then (true, cookie)
  else if is_None domain then
    (should_issue_warning,
     PyDict.set "rest" EXPLICIT_NONE (PyDict.set "domain" (Str "") cookie))
  else (should_issue_warning, cookie).

Definition cookie_jar_set (cookie : dict) : M unit :=
  fun s =>
    match RequestsCookieJar.set cookie (cookie_jar s) with
    | Ok jar => (with_cookie_jar jar s, Ok tt)
    | Raise e => (s, Raise e)
    end.

(** The [for] loop.  It returns the final [should_issue_warning] and the
    records as the loop leaves them: for a list-shaped field these are the
    very objects of [data], which the loop rewrites in place. *)
Fixpoint for_cookies (from_dict : bool) (normalized_cookies : list Any)
    (should_issue_warning : bool) : M (bool * list Any) :=
  match normalized_cookies with
  | [] => mret (should_issue_warning, [])
  | Dict cookie :: rest =>
      let marked := mark_cookie from_dict should_issue_warning cookie in
      cookie_jar_set marked.2;;
      r ← for_cookies from_dict rest marked.1;
      mret (r.1, Dict marked.2 :: r.2)
  | _ :: _ => raise AttributeError
  end.

(** The part of [pre_process_data] that decodes the cookie field. *)
Definition load_cookies (data : dict) : M (bool * list Any) :=
  let cookies := PyDict.get "cookies" data in
  normalized_cookies ← lift (normalize_cookies cookies);
  for_cookies (isinstance_dict cookies) normalized_cookies false.

(** The warning text. *)
Definition warning_text (bound_host session_id : string) : string :=
  let warning := INSECURE_COOKIE_JAR_WARNING bound_host session_id in
  if negb (is_anonymous_session session_id)
  then warning +:+ INSECURE_COOKIE_JAR_WARNING_FOR_NAMED_SESSIONS
  else warning.

Definition issue_warning (should_issue_warning : bool) : M unit :=
  fun s =>
    if should_issue_warning && negb (refactor_mode s) then
      (with_env (log_error (warning_text (bound_host s) (session_id s))
                   "warning" (env s)) s, Ok tt)
    else (s, Ok tt).

Definition pre_process_data (data : dict) : M dict :=
  r ← load_cookies data;
  issue_warning r.1;;
  mret (if isinstance_list (PyDict.get "cookies" data)
        then PyDict.set "cookies" (List r.2) data
        else data).

(** ** Saving: [Session.post_process_data] *)

(** [{cookie.pop('name'): cookie for cookie in normalized_cookies}]: a later
    cookie of the same name replaces the value, the key keeps its place. *)
Fixpoint by_name (normalized_cookies : list dict) (acc : dict) : result dict :=
  match normalized_cookies with
  | [] => Ok acc
  | cookie :: rest =>
      match PyDict.get "name" cookie with
      | Some (Str name) =>
          by_name rest (PyDict.set name (Dict (PyDict.remove "name" cookie)) acc)
      | Some _ => Raise TypeError
      | None => Raise KeyError
      end
  end.

Definition post_process_data (data : dict) : M dict :=
  fun s =>
    let cookies := PyDict.get "cookies" data in
    let normalized_cookies := map materialize_cookie (cookie_jar s) in
    if isinstance_dict cookies then
      match by_name normalized_cookies [] with
      | Ok mapping => (s, Ok (PyDict.set "cookies" (Dict mapping) data))
      | Raise e => (s, Raise e)
      end
    else (s, Ok (PyDict.set "cookies" (List (map Dict normalized_cookies)) data)).

(** ** Merging request headers: [Session.update_headers] *)

(** The [headers] property. *)
Definition headers_property (s : Session) : list (string * string) :=
  HTTPHeadersDict.of_dict (headers s).

(** What the loop of [update_headers] works on: the local [headers], the
    session's cookie jar, and the caller's [request_headers]. *)
Record MergeState := mkMergeState {
  st_headers : list (string * string);
  st_cookie_jar : RequestsCookieJar.t;
  st_request_headers : list (string * HeaderValue);
}.

Definition ignored_prefix (name : string) : bool :=
  existsb (fun prefix => Str.startswith (Str.lower name) (Str.lower prefix))
    SESSION_IGNORED_HEADER_PREFIXES.

Definition default_path (morsel : Morsel.t) : Morsel.t :=
  if negb (Str.nonempty (Morsel.path morsel)) then
    Morsel.mk (Morsel.key morsel) (Morsel.value morsel) DEFAULT_COOKIE_PATH
      (Morsel.domain morsel) (Morsel.expires morsel) (Morsel.secure morsel)
      (Morsel.httponly morsel)
  else morsel.

Section UpdateHeaders.
(** [http.cookies.SimpleCookie(value).items()]: the parser of a [Cookie]
    header value is a library function, taken as a parameter. *)
Variable SimpleCookie : string -> list Morsel.t.

(** One iteration of the loop over [request_headers.copy().items()].  In the
    [Cookie] branch [all_cookie_headers] is the list [getall] has just
    built, so removing [original_value] from it leaves [request_headers]
    as it is. *)
Definition update_header (st : MergeState) (item : string * HeaderValue)
  : MergeState :=
  let name := item.1 in
  match item.2 with
  | HNone => st
  | original_value =>
      let value := decode original_value in
      if String.eqb (Str.lower name) "user-agent"
         && Str.startswith value "HTTPie/" then st
      else if String.eqb (Str.lower name) "cookie" then
        let jar' :=
          fold_left
            (fun j morsel => RequestsCookieJar.set_morsel (default_path morsel) j)
            (SimpleCookie value) (st_cookie_jar st) in
        let all_cookie_headers :=
          HTTPHeadersDict.getall name (st_request_headers st) in
        if (1 <? length all_cookie_headers)%nat then
          mkMergeState (st_headers st) jar' (st_request_headers st)
        else
          mkMergeState (st_headers st) jar'
            (HTTPHeadersDict.popall name (st_request_headers st))
      else if ignored_prefix name then st
      else
        mkMergeState (HTTPHeadersDict.setitem name value (st_headers st))
          (st_cookie_jar st) (st_request_headers st)
  end.

(** [update_headers] returns the session and the caller's
    [request_headers] as the call leaves them. *)
Definition update_headers (request_headers : list (string * HeaderValue))
    (s : Session) : Session * list (string * HeaderValue) :=
  let st :=
    fold_left update_header request_headers
      (mkMergeState (headers_property s) (cookie_jar s) request_headers) in
  (with_headers (HTTPHeadersDict.to_dict (st_headers st))
     (with_cookie_jar (st_cookie_jar st) s),
   st_request_headers st).
End UpdateHeaders.

(** ** The [auth] setter *)

(** [{'type', 'raw_auth'} == auth.keys()]. *)
Definition same_keys (expected actual : list string) : bool :=
  forallb (fun k => existsb (String.eqb k) actual) expected
  && forallb (fun k => existsb (String.eqb k) expected) actual.

Definition set_auth (auth : dict) : M unit :=
  fun s =>
    if same_keys ["type"; "raw_auth"] (PyDict.keys auth)
    then (with_auth auth s, Ok tt)
    else (s, Raise AssertionError).

(** ** The [auth] getter *)

Section AuthGetter.
(** The credential object an auth plugin produces ([requests.auth.AuthBase]). *)
Variable AuthBase : Type.

(** Modelled from the spec: an auth plugin ([httpie/plugins/base.py]) is
    outside the sources.  The spec describes it as a capability with a
    flag telling whether it parses a single raw credential string
    ([auth_parse]) and a method producing the credential object; the
    method sees the plugin's [raw_auth] attribute ([None] unless the getter
    assigned it) and the two keyword arguments [username] and [password]. *)
Record AuthPlugin := mkAuthPlugin {
  auth_parse : bool;
  get_auth : option Any -> Any -> Any -> AuthBase;
}.

(** [plugin_manager.get_auth_plugin(type)()] ([httpie/plugins/registry.py])
    and [parse_auth] ([httpie/cli/argtypes.py]), which returns the key and
    the value it parsed, are outside the sources; they are parameters. *)
Variable get_auth_plugin : Any -> result AuthPlugin.
Variable parse_auth : Any -> result (Any * Any).

(** The [auth] property.  The [try] covers [auth['raw_auth']] only: a key
    missing in the [except] branch is not caught. *)
Definition auth_property : M (option AuthBase) :=
  fun s =>
    let auth := auth s in
    if negb (truthy (Dict auth)) then (s, Ok None)
    else
      match PyDict.get "type" auth with
      | None => (s, Raise KeyError)
      | Some type =>
          if negb (truthy type) then (s, Ok None)
          else
            match get_auth_plugin type with
            | Raise e => (s, Raise e)
            | Ok plugin =>
                match PyDict.get "raw_auth" auth with
                | Some raw_auth =>
                    if auth_parse plugin then
                      match parse_auth raw_auth with
                      | Ok parsed =>
                          (s, Ok (Some (get_auth plugin (Some raw_auth)
                                          parsed.1 parsed.2)))
                      | Raise e => (s, Raise e)
                      end
                    else
                      (s, Ok (Some (get_auth plugin (Some raw_auth) None_ None_)))
                | None =>
                    match PyDict.get "username" auth, PyDict.get "password" auth with
                    | Some username, Some password =>
                        (s, Ok (Some (get_auth plugin None username password)))
                    | _, _ => (s, Raise KeyError)
                    end
                end
            end
      end.
End AuthGetter.

(** ** [get_httpie_session] *)

Section Locator.
(** [url_as_host] ([httpie/utils.py]) and [os.path.expanduser] are outside
    the sources; they are parameters. *)
Variable url_as_host : string -> string.
Variable expanduser : string -> string.

(** [host or url_as_host(url)], then the [localhost] fallback. *)
Definition bound_hostname_of (host : option string) (url : string) : string :=
  let bound_hostname :=
    match host with
    | Some h => if Str.nonempty h then h else url_as_host url
    | None => url_as_host url
    end in
  if negb (Str.nonempty bound_hostname) then "localhost" else bound_hostname.

(** The session as [get_httpie_session] constructs it; the function then
    calls [session.load()], which reads the file and hands its content to
    [pre_process_data]. *)
Definition get_httpie_session (env : Environment) (config_dir : Path.t)
    (session_name : string) (host : option string) (url : string)
    (refactor_mode : bool) : Session :=
  let bound_hostname := bound_hostname_of host url in
  let hostname := Str.replace ":" "_" bound_hostname in
  let located :=
    if is_anonymous_session session_name then
      let path := expanduser session_name in
      (inl path, path)
    else
      (inr (config_dir // SESSIONS_DIR_NAME // hostname
              // (session_name +:+ ".json")),
       session_name) in
  Session_init located.1 env (Str.split_head ":" bound_hostname) located.2
    refactor_mode.
End Locator.

(** * Vocabulary of the properties *)

(** The attributes fixed at construction. *)
Definition same_identity (s s' : Session) : Prop :=
  path s' = path s /\ session_id s' = session_id s
  /\ bound_host s' = bound_host s /\ refactor_mode s' = refactor_mode s.

(** An [expanduser] for the examples: "~" and "~/..." are expanded with the
    given home directory, any other name is returned as it is. *)
Definition expanduser_with_home (home path : string) : string :=
  match path with
  | String "~" EmptyString => home
  | String "~" (String "/" rest) => home +:+ "/" +:+ rest
  | _ => path
  end.

(** The domain of a record is absent or the empty string:
    [cookie.get('domain', '') == '']. *)
Definition insecure_entry (cookie : Any) : bool :=
  match cookie with
  | Dict c => eq_empty_str (default (Str "") (PyDict.get "domain" c))
  | _ => false
  end.

(** A record as the loop leaves it. *)
Definition rewritten (from_dict : bool) (cookie : Any) : Any :=
  match cookie with
  | Dict c => Dict (mark_cookie from_dict false c).2
  | _ => cookie
  end.

Definition explicit_none (cookie : dict) : dict :=
  PyDict.set "rest" EXPLICIT_NONE (PyDict.set "domain" (Str "") cookie).

(** [for_cookies] touches the session through its cookie jar only: this is
    the same loop as a function of the jar. *)
Fixpoint for_cookies_jar (from_dict : bool) (normalized_cookies : list Any)
    (should_issue_warning : bool) (jar : RequestsCookieJar.t)
  : RequestsCookieJar.t * result (bool * list Any) :=
  match normalized_cookies with
  | [] => (jar, Ok (should_issue_warning, []))
  | Dict cookie :: rest =>
      let marked := mark_cookie from_dict should_issue_warning cookie in
      match RequestsCookieJar.set marked.2 jar with
      | Ok jar' =>
          match for_cookies_jar from_dict rest marked.1 jar' with
          | (jar'', Ok r) => (jar'', Ok (r.1, Dict marked.2 :: r.2))
          | (jar'', Raise e) => (jar'', Raise e)
          end
      | Raise e => (jar, Raise e)
      end
  | _ :: _ => (jar, Raise AttributeError)
  end.

(** The cookie field of the data a save produces. *)
Definition saved_cookies (data : dict) (s : Session) : option Any :=
  match (post_process_data data s).2 with
  | Ok data' => PyDict.get "cookies" data'
  | Raise _ => None
  end.


(** The explicit-none marker: domain "" tagged [is_explicit_none]. *)
Definition is_marker (c : Cookie.t) : bool :=
  Cookie.is_explicit_none c && String.eqb (Cookie.domain c) "".




(** The headers the merge drops: a name with an ignored prefix, and a
    [User-Agent] whose value is the tool's own (it starts with "HTTPie/"). *)
Definition dropped (item : string * HeaderValue) : bool :=
  ignored_prefix item.1
  || String.eqb (Str.lower item.1) "user-agent"
     && Str.startswith (decode item.2) "HTTPie/".

Definition kept (item : string * HeaderValue) : bool := negb (dropped item).

(** Two states of the merge loop that differ only by the dropped headers
    still present in the caller's [request_headers]. *)
Definition same_merge (st st' : MergeState) : Prop :=
  st_headers st' = st_headers st
  /\ st_cookie_jar st' = st_cookie_jar st
  /\ st_request_headers st' = List.filter kept (st_request_headers st).

(** A header the merge stores: its value is set, it is not dropped and it
    is not a [Cookie] header. *)
Definition is_unset (item : string * HeaderValue) : bool :=
  match item.2 with HNone => true | _ => false end.

Definition is_cookie_header (item : string * HeaderValue) : bool :=
  String.eqb (Str.lower item.1) "cookie".

Definition storable (item : string * HeaderValue) : bool :=
  negb (is_unset item) && negb (dropped item) && negb (is_cookie_header item).

(** The first entry of a multi-map stored under a name. *)
Definition first_entry {V : Type} (name : string) (h : list (string * V))
  : option (string * V) :=
  List.find (fun kv => HTTPHeadersDict.same_name kv.1 name) h.

(** The last cookie of a list that has a given name. *)
Fixpoint last_named (name : string) (l : list Cookie.t) : option Cookie.t :=
  match l with
  | [] => None
  | c :: l' =>
      match last_named name l' with
      | Some c' => Some c'
      | None => if String.eqb (Cookie.name c) name then Some c else None
      end
  end.

(** The entry a cookie gets in the mapping shape. *)
Definition mapping_entry (c : Cookie.t) : string * Any :=
  (Cookie.name c, Dict (PyDict.remove "name" (materialize_cookie c))).


(** A [Cookie] header the merge consumes: its value is set. *)
Definition consumed (item : string * HeaderValue) : bool :=
  is_cookie_header item && negb (is_unset item).

(** The names of a header dictionary are distinct even when compared
    case-insensitively. *)
Definition distinct_names {V : Type} (h : list (string * V)) : Prop :=
  List.NoDup (map (fun kv => Str.lower kv.1) h).

Section NewStyleAuth.
Variable AuthBase : Type.
Variable get_auth_plugin : Any -> result (AuthPlugin AuthBase).
Variable parse_auth : Any -> result (Any * Any).

(** What the getter returns for a new-style descriptor. *)
Definition new_style_auth (type raw_auth : Any)
  : result (option AuthBase) :=
  if negb (truthy type) then Ok None
  else
    match get_auth_plugin type with
    | Raise e => Raise e
    | Ok plugin =>
        if auth_parse AuthBase plugin then
          match parse_auth raw_auth with
          | Ok parsed =>
              Ok (Some (get_auth AuthBase plugin (Some raw_auth) parsed.1 parsed.2))
          | Raise e => Raise e
          end
        else Ok (Some (get_auth AuthBase plugin (Some raw_auth) None_ None_))
    end.
End NewStyleAuth.

(** * Example data *)

Definition example_session : Session :=
  Session_init
    (inr (Path.of_str "/home/u/.config/httpie/sessions/example.com/work.json"))
    (mkEnvironment []) "example.com" "work" false.

(** A legacy, mapping-shaped cookie field: [sid] has no domain, [t] has an
    explicit null domain. *)
Definition legacy_mapping : dict :=
  [("sid", Dict [("value", Str "1"); ("path", Str "/")]);
   ("t", Dict [("value", Str "2"); ("domain", None_)])].

Definition legacy_data : dict := [("cookies", Dict legacy_mapping)].

(** A current, list-shaped cookie field. *)
Definition null_domain_record : dict :=
  [("name", Str "sid"); ("value", Str "1"); ("domain", None_)].

Definition current_data : dict :=
  [("cookies",
    List [Dict null_domain_record;
          Dict [("name", Str "t"); ("value", Str "2");
                ("domain", Str "example.com")]])].

(** The session after [current_data] was loaded into it. *)
Definition loaded_session : Session :=
  (pre_process_data current_data example_session).1.


Definition agent_session : Session :=
  with_headers [("User-Agent", "MyClient/1.0")] example_session.

(** A parser for the examples: the header is one cookie named [sid] with
    the whole header value as its value and no attribute. *)
Definition one_morsel (value : string) : list Morsel.t :=
  [Morsel.mk "sid" value "" "" None false None_].

(** A registry for the examples: every type names a plugin that parses the
    raw string and returns the pair of credentials it is given; the parser
    splits ["user:pass"]. *)
Definition pair_plugin : AuthPlugin (Any * Any) :=
  mkAuthPlugin (Any * Any) true (fun _ username password => (username, password)).

Definition pair_registry (type : Any) : result (AuthPlugin (Any * Any)) :=
  Ok pair_plugin.

Definition parse_user_pass (raw_auth : Any) : result (Any * Any) :=
  match raw_auth with
  | Str "user:pass" => Ok (Str "user", Str "pass")
  | _ => Raise TypeError
  end.

Definition legacy_auth_session : Session :=
  with_auth [("type", Str "basic"); ("username", Str "u"); ("password", Str "p")]
    example_session.

(** * Properties *)

(** ** Strings *)


Lemma append_cons (c : ascii) (a b : string) :
  String c a +:+ b = String c (a +:+ b).
Proof. reflexivity. Qed.




(** ** What the methods leave alone *)

Lemma same_identity_refl s : same_identity s s.
Proof. repeat split. Qed.

Lemma same_identity_trans s1 s2 s3 :
  same_identity s1 s2 -> same_identity s2 s3 -> same_identity s1 s3.
Proof. unfold same_identity. intuition congruence. Qed.

Ltac run := unfold mbind, M_bind, mret, M_ret, raise, lift in *; simpl in *.

Lemma cookie_jar_set_identity cookie s :
  same_identity s (cookie_jar_set cookie s).1.
Proof.
  unfold cookie_jar_set.
  destruct (RequestsCookieJar.set cookie (cookie_jar s)); repeat split.
Qed.

Lemma for_cookies_identity from_dict l :
  forall w s, same_identity s (for_cookies from_dict l w s).1.
Proof.
  induction l as [|c l IH]; intros w s; [apply same_identity_refl|].
  destruct c; try apply same_identity_refl.
  simpl. run.
  pose proof (cookie_jar_set_identity (mark_cookie from_dict w d).2 s) as Hset.
  destruct (cookie_jar_set (mark_cookie from_dict w d).2 s) as [s1 [[]|e]]; [|exact Hset].
  pose proof (IH (mark_cookie from_dict w d).1 s1) as Hrest. simpl in *.
  destruct (for_cookies from_dict l (mark_cookie from_dict w d).1 s1) as [s2 [r|e]];
    simpl in *; eapply same_identity_trans; eauto.
Qed.

Lemma load_cookies_identity data s : same_identity s (load_cookies data s).1.
Proof.
  unfold load_cookies. run.
  destruct (normalize_cookies (PyDict.get "cookies" data)); [|apply same_identity_refl].
  apply for_cookies_identity.
Qed.

Lemma issue_warning_identity w s : same_identity s (issue_warning w s).1.
Proof. unfold issue_warning. destruct (w && _); repeat split. Qed.

Lemma pre_process_data_identity data s :
  same_identity s (pre_process_data data s).1.
Proof.
  unfold pre_process_data. run.
  pose proof (load_cookies_identity data s) as H1.
  destruct (load_cookies data s) as [s1 [r|e]]; [|exact H1]. simpl in H1.
  pose proof (issue_warning_identity r.1 s1) as H2.
  destruct (issue_warning r.1 s1) as [s2 [[]|e]]; simpl in *;
    eapply same_identity_trans; eauto.
Qed.

Lemma post_process_data_session data s : (post_process_data data s).1 = s.
Proof.
  unfold post_process_data.
  destruct (isinstance_dict _); [|reflexivity].
  destruct (by_name _ _); reflexivity.
Qed.

Lemma update_headers_identity sc rh s :
  same_identity s (update_headers sc rh s).1.
Proof. repeat split. Qed.

(** ** Where a session lives: [get_httpie_session] *)

Section LocatorFacts.
Variable url_as_host : string -> string.
Variable expanduser : string -> string.
Variable env : Environment.
Variable config_dir : Path.t.
Variable url : string.
Variable refactor_mode : bool.

Local Abbreviation session_for session_name host :=
  (get_httpie_session url_as_host expanduser env config_dir session_name host
     url refactor_mode).

Lemma truediv_relative (p : Path.t) (seg : string) :
  Path.parse_root seg = "" ->
  p // seg = Path.mk (Path.root p) (Path.parts p ++ Path.parts (Path.of_str seg)).
Proof. intros H. unfold Path.truediv. simpl. rewrite H. reflexivity. Qed.

(** A named session: the directory is the host with its port, the colon
    replaced by an underscore. *)
Lemma named_session_location session_name host :
  is_anonymous_session session_name = false ->
  path (session_for session_name host)
  = config_dir // SESSIONS_DIR_NAME
      // Str.replace ":" "_" (bound_hostname_of url_as_host host url)
      // (session_name +:+ ".json")
  /\ session_id (session_for session_name host) = session_name.
Proof.
  intros H. unfold get_httpie_session. rewrite H. split; reflexivity.
Qed.

(** C3, as amended: for the session named "work" and the host
    "api.example.com:443" the file is
    <config-root>/sessions/api.example.com_443/work.json (the directory
    keeps the port, the colon turned into an underscore) and the display id
    is "work"; for a name that contains a path separator the path is the
    user-home-expanded name, and the display id is that expanded name
    verbatim. *)
Theorem session_location :
  path (session_for "work" (Some "api.example.com:443"))
  = Path.mk (Path.root config_dir)
      (Path.parts config_dir ++ ["sessions"; "api.example.com_443"; "work.json"])
  /\ session_id (session_for "work" (Some "api.example.com:443")) = "work"
  /\ forall session_name host,
       is_anonymous_session session_name = true ->
       path (session_for session_name host) = Path.of_str (expanduser session_name)
       /\ session_id (session_for session_name host) = expanduser session_name.
Proof.
  split; [|split].
  - destruct (named_session_location "work" (Some "api.example.com:443"))
      as [-> _]; [reflexivity|].
    rewrite !truediv_relative by reflexivity.
    simpl. rewrite <- !app_assoc. reflexivity.
  - reflexivity.
  - intros session_name host H. unfold get_httpie_session.
    rewrite H. split; reflexivity.
Qed.

(** C7, as amended: [bound_host] is the text before the first colon of the
    explicit host argument when that is given and not empty, otherwise of
    the host of the request URL, and of "localhost" when both are empty;
    its case is kept as given (it is not lowercased); decoding on load,
    merging request headers and encoding on save leave it unchanged. *)
Theorem bound_host_derivation session_name host :
  bound_host (session_for session_name host)
  = Str.split_head ":"
      match host with
      | Some (String c h) => String c h
      | _ => match url_as_host url with
             | String c u => String c u
             | EmptyString => "localhost"
             end
      end
  /\ (forall data s, bound_host (pre_process_data data s).1 = bound_host s)
  /\ (forall SimpleCookie request_headers s,
        bound_host (update_headers SimpleCookie request_headers s).1 = bound_host s)
  /\ (forall data s, bound_host (post_process_data data s).1 = bound_host s).
Proof.
  split; [|split; [|split]].
  - unfold get_httpie_session, bound_hostname_of. simpl.
    destruct host as [[|c h]|]; simpl; destruct (url_as_host url); reflexivity.
  - intros data s. apply pre_process_data_identity.
  - intros SimpleCookie request_headers s. apply update_headers_identity.
  - intros data s. now rewrite post_process_data_session.
Qed.
End LocatorFacts.

Lemma session_location_witness :
  is_anonymous_session "/tmp/x.json" = true
  /\ Path.to_str
       (path (get_httpie_session (fun _ => "") (expanduser_with_home "/home/u")
                (mkEnvironment []) (Path.of_str "/home/u/.config/httpie")
                "/tmp/x.json" (Some "api.example.com:443") "" false))
     = "/tmp/x.json"
  /\ session_id (get_httpie_session (fun _ => "") (expanduser_with_home "/home/u")
                   (mkEnvironment []) (Path.of_str "/home/u/.config/httpie")
                   "/tmp/x.json" (Some "api.example.com:443") "" false)
     = "/tmp/x.json".
Proof.
  destruct (proj2 (proj2 (session_location (fun _ => "") (expanduser_with_home "/home/u")
              (mkEnvironment []) (Path.of_str "/home/u/.config/httpie") "" false))
              "/tmp/x.json" (Some "api.example.com:443") eq_refl) as [Hp Hi].
  split; [reflexivity|]. split.
  - rewrite Hp. reflexivity.
  - rewrite Hi. reflexivity.
Defined.

(** The claim C3 as stated fails: the directory of the named session is not
    the host without its port. *)
Lemma session_location_keeps_port :
  path (get_httpie_session (fun _ => "") (expanduser_with_home "/home/u")
          (mkEnvironment []) (Path.of_str "/home/u/.config/httpie")
          "work" (Some "api.example.com:443") "" false)
  <> Path.of_str "/home/u/.config/httpie"
       // "sessions" // "api.example.com" // "work.json".
Proof. vm_compute. discriminate. Qed.

(** The claim C7 as stated fails: [bound_host] is not lowercased. *)
Lemma bound_host_keeps_case :
  bound_host (get_httpie_session (fun _ => "") (expanduser_with_home "/home/u")
                (mkEnvironment []) (Path.of_str "/home/u/.config/httpie")
                "work" (Some "Example.COM:8080") "" false)
  <> Str.lower (Str.split_head ":" "Example.COM:8080").
Proof. vm_compute. discriminate. Qed.

(** ** The [auth] setter *)

Lemma existsb_eqb_In (k : string) (l : list string) :
  existsb (String.eqb k) l = true <-> In k l.
Proof.
  rewrite existsb_exists. split.
  - intros (x & Hx & E). apply String.eqb_eq in E. now subst.
  - intros H. exists k. split; [exact H | apply String.eqb_refl].
Qed.

Lemma same_keys_spec (expected actual : list string) :
  same_keys expected actual = true <-> (forall k, In k actual <-> In k expected).
Proof.
  unfold same_keys. rewrite andb_true_iff, !forallb_forall. split.
  - intros [H1 H2] k. split; intros H.
    + now apply existsb_eqb_In, H2.
    + now apply existsb_eqb_In, H1.
  - intros H. split; intros k Hk; apply existsb_eqb_In, H, Hk.
Qed.

(** C8: the setter stores the dictionary exactly when its key set is
    {type, raw_auth}; with any other key set it raises (the assertion
    failure is the spec's InvalidAuthDescriptor) and the session, with its
    stored auth, is as before. *)
Theorem set_auth_exact_keys (descriptor : dict) (s : Session) :
  ((forall k, In k (PyDict.keys descriptor) <-> k = "type" \/ k = "raw_auth")
   /\ set_auth descriptor s = (with_auth descriptor s, Ok tt)
   /\ auth (set_auth descriptor s).1 = descriptor)
  \/ (~ (forall k, In k (PyDict.keys descriptor) <-> k = "type" \/ k = "raw_auth")
      /\ set_auth descriptor s = (s, Raise AssertionError)
      /\ auth (set_auth descriptor s).1 = auth s).
Proof.
  assert (Hk : (forall k, In k (PyDict.keys descriptor) <-> k = "type" \/ k = "raw_auth")
               <-> same_keys ["type"; "raw_auth"] (PyDict.keys descriptor) = true).
  { rewrite same_keys_spec. simpl. split; intros H k; rewrite H; intuition. }
  unfold set_auth.
  destruct (same_keys ["type"; "raw_auth"] (PyDict.keys descriptor)) eqn:E.
  - left. split; [now apply Hk | split; reflexivity].
  - right. split; [|split; reflexivity]. intros H. apply Hk in H. discriminate.
Qed.

Example set_auth_missing_raw_auth s :
  set_auth [("type", Str "basic")] s = (s, Raise AssertionError).
Proof. reflexivity. Qed.

Example set_auth_legacy_shape s :
  set_auth [("type", Str "basic"); ("username", Str "u"); ("password", Str "p")] s
  = (s, Raise AssertionError).
Proof. reflexivity. Qed.

Example set_auth_extra_key s :
  set_auth [("type", Str "basic"); ("raw_auth", Str "u:p"); ("username", Str "u")] s
  = (s, Raise AssertionError).
Proof. reflexivity. Qed.

Example set_auth_accepted s :
  set_auth [("raw_auth", Str "u:p"); ("type", Str "basic")] s
  = (with_auth [("raw_auth", Str "u:p"); ("type", Str "basic")] s, Ok tt).
Proof. reflexivity. Qed.

(** ** Dictionaries *)

Section PyDictFacts.
Context {V : Type}.
Implicit Types (d e : list (string * V)) (k : string) (v : V).

Lemma get_set k k' v d :
  PyDict.get k (PyDict.set k' v d)
  = if String.eqb k' k then Some v else PyDict.get k d.
Proof.
  induction d as [|[k0 v0] d IH]; simpl.
  - reflexivity.
  - destruct (String.eqb k0 k') eqn:E0; simpl.
    + apply String.eqb_eq in E0. subst k0.
      destruct (String.eqb k' k); reflexivity.
    + destruct (String.eqb k0 k) eqn:E1; [|exact IH].
      apply String.eqb_eq in E1. subst k0. rewrite String.eqb_sym, E0. reflexivity.
Qed.

Lemma get_remove k k' d :
  PyDict.get k (PyDict.remove k' d)
  = if String.eqb k' k then None else PyDict.get k d.
Proof.
  induction d as [|[k0 v0] d IH]; simpl.
  - now destruct (String.eqb k' k).
  - destruct (String.eqb k0 k') eqn:E0; simpl.
    + apply String.eqb_eq in E0. subst k0. rewrite IH.
      destruct (String.eqb k' k); reflexivity.
    + destruct (String.eqb k0 k) eqn:E1; [|exact IH].
      apply String.eqb_eq in E1. subst k0. rewrite String.eqb_sym, E0. reflexivity.
Qed.

Lemma get_None_notin k d : ~ In k (PyDict.keys d) -> PyDict.get k d = None.
Proof.
  induction d as [|[k0 v0] d IH]; simpl; [reflexivity|]. intros H.
  destruct (String.eqb k0 k) eqn:E.
  - apply String.eqb_eq in E. tauto.
  - apply IH. tauto.
Qed.

End PyDictFacts.

(** ** Decoding the cookie field *)

Lemma insecure_entry_spec (c : dict) :
  insecure_entry (Dict c) = true
  <-> PyDict.get "domain" c = None \/ PyDict.get "domain" c = Some (Str "").
Proof.
  simpl. destruct (PyDict.get "domain" c) as [v|]; simpl.
  - split.
    + destruct v as [| | |[|]| | |]; simpl; intros H; try discriminate. now right.
    + intros [H|H]; [discriminate|]. now inversion H.
  - split; [now left | reflexivity].
Qed.

Lemma mark_cookie_record from_dict w c :
  (mark_cookie from_dict w c).2 = (mark_cookie from_dict false c).2.
Proof.
  unfold mark_cookie.
  destruct (eq_empty_str _ && from_dict); [reflexivity|].
  destruct (is_None _); reflexivity.
Qed.

Lemma mark_cookie_flag from_dict w c :
  (mark_cookie from_dict w c).1 = w || from_dict && insecure_entry (Dict c).
Proof.
  unfold mark_cookie, insecure_entry.
  destruct (eq_empty_str _) eqn:E, from_dict; simpl;
    try destruct (is_None _); simpl;
    rewrite ?orb_true_r, ?orb_false_r; reflexivity.
Qed.

Lemma mark_cookie_null from_dict w c :
  PyDict.get "domain" c = Some None_ ->
  mark_cookie from_dict w c = (w, explicit_none c).
Proof. intros H. unfold mark_cookie. rewrite H. reflexivity. Qed.

(** What a run of the loop that does not raise returns. *)
Lemma for_cookies_result from_dict l :
  forall w s s' r,
    for_cookies from_dict l w s = (s', Ok r) ->
    r.1 = w || from_dict && existsb insecure_entry l
    /\ r.2 = map (rewritten from_dict) l.
Proof.
  induction l as [|c l IH]; intros w s s' r H.
  - inversion H; subst. simpl. now rewrite andb_false_r, orb_false_r.
  - destruct c; try discriminate. simpl in H. run.
    destruct (cookie_jar_set (mark_cookie from_dict w d).2 s) as [s1 [[]|e]];
      [|discriminate].
    destruct (for_cookies from_dict l (mark_cookie from_dict w d).1 s1)
      as [s2 [r2|e]] eqn:E; [|discriminate].
    apply IH in E as [E1 E2]. inversion H; subst. cbn [fst snd].
    rewrite E1, E2, mark_cookie_flag, mark_cookie_record.
    split; [|reflexivity].
    change (insecure_entry (Dict d))
      with (eq_empty_str (default (Str "") (PyDict.get "domain" d))).
    generalize (eq_empty_str (default (Str "") (PyDict.get "domain" d))),
      (existsb insecure_entry l).
    intros b1 b2. destruct w, from_dict, b1, b2; reflexivity.
Qed.


Lemma load_cookies_result data s s' r :
  load_cookies data s = (s', Ok r) ->
  exists normalized,
    normalize_cookies (PyDict.get "cookies" data) = Ok normalized
    /\ r.1 = isinstance_dict (PyDict.get "cookies" data)
             && existsb insecure_entry normalized
    /\ r.2 = map (rewritten (isinstance_dict (PyDict.get "cookies" data)))
               normalized.
Proof.
  unfold load_cookies. run.
  destruct (normalize_cookies (PyDict.get "cookies" data)) as [normalized|];
    [|discriminate].
  intros H. apply for_cookies_result in H as [H1 H2].
  exists normalized. split; [reflexivity|]. split; assumption.
Qed.

Lemma set_cookie_In c jar : In c (RequestsCookieJar.set_cookie c jar).
Proof.
  induction jar as [|c' jar IH]; simpl; [now left|].
  destruct (RequestsCookieJar.same_key c' c); [now left | now right].
Qed.

(** What the jar receives for a record rewritten to the explicit-none
    marker: the marked cookie, or nothing when the value of the record is
    null (the jar then only loses cookies). *)
Lemma set_explicit_none cookie jar jar' :
  RequestsCookieJar.set (explicit_none cookie) jar = Ok jar' ->
  (exists c, In c jar' /\ Cookie.domain c = ""
             /\ Cookie.is_explicit_none c = true)
  \/ (PyDict.get "value" cookie = Some None_
      /\ forall c, In c jar' -> In c jar).
Proof.
  unfold RequestsCookieJar.set. cbv zeta. intros H.
  assert (Hv : PyDict.get "value" (explicit_none cookie)
               = PyDict.get "value" cookie)
    by (unfold explicit_none; now rewrite !get_set).
  rewrite Hv in H.
  assert (Hremoved : forall name domain path c,
             In c (RequestsCookieJar.remove_cookie_by_name name domain path jar)
             -> In c jar).
  { intros name domain path c Hc.
    unfold RequestsCookieJar.remove_cookie_by_name in Hc.
    now apply List.filter_In in Hc. }
  destruct (PyDict.get "value" cookie) as [[]|];
    destruct (PyDict.get "name" _) as [[]|]; try discriminate;
    try (right; split; [reflexivity|]; inversion H; subst; apply Hremoved).
  left. unfold RequestsCookieJar.create_cookie, mbind, result_bind in H.
  destruct (forallb _ _); [|discriminate].
  unfold explicit_none in H. rewrite !get_remove, !get_set in H. simpl in H.
  destruct (RequestsCookieJar.as_str _); [|discriminate].
  destruct (RequestsCookieJar.as_expires _); [|discriminate].
  destruct (RequestsCookieJar.as_bool _); [|discriminate].
  inversion H; subst. eexists. split; [apply set_cookie_In|].
  split; reflexivity.
Qed.


(** C10: an entry whose domain is an explicit null, in a field of either
    shape, does not set the insecure-legacy flag and is rewritten to the
    explicit-none marker, under which the jar receives a cookie with
    domain "" tagged is_explicit_none (when the value of the entry is null
    the jar receives no cookie: it only loses the cookies that name
    unsets); the flag a load computes is set exactly when the field is
    mapping-shaped and the domain of some record is absent or the empty
    string. *)
Theorem explicit_null_domain_is_secure (from_dict should_issue_warning : bool)
    (cookie : dict) :
  PyDict.get "domain" cookie = Some None_ ->
  mark_cookie from_dict should_issue_warning cookie
  = (should_issue_warning, explicit_none cookie)
  /\ insecure_entry (Dict cookie) = false
  /\ (forall jar jar',
        RequestsCookieJar.set (explicit_none cookie) jar = Ok jar' ->
        (exists c, In c jar' /\ Cookie.domain c = ""
                   /\ Cookie.is_explicit_none c = true)
        \/ (PyDict.get "value" cookie = Some None_
            /\ forall c, In c jar' -> In c jar))
  /\ (forall data s s' flag seen,
        load_cookies data s = (s', Ok (flag, seen)) ->
        exists normalized,
          normalize_cookies (PyDict.get "cookies" data) = Ok normalized
          /\ (flag = true
              <-> isinstance_dict (PyDict.get "cookies" data) = true
                  /\ exists c, In (Dict c) normalized
                       /\ (PyDict.get "domain" c = None
                           \/ PyDict.get "domain" c = Some (Str "")))).
Proof.
  intros Hdom. split; [now apply mark_cookie_null|].
  split; [simpl; now rewrite Hdom|].
  split; [intros jar jar'; apply set_explicit_none|].
  intros data s s' flag seen H.
  apply load_cookies_result in H as (normalized & Hn & Hflag & _).
  exists normalized. split; [exact Hn|]. simpl in Hflag. subst flag.
  rewrite andb_true_iff, existsb_exists. split.
  - intros [Hd (x & Hx & Hins)]. split; [exact Hd|].
    destruct x; try discriminate. exists d. split; [exact Hx|].
    now apply insecure_entry_spec.
  - intros [Hd (c & Hc & Hins)]. split; [exact Hd|].
    exists (Dict c). split; [exact Hc|]. now apply insecure_entry_spec.
Qed.

(** ** The loop on the jar alone *)

Lemma with_cookie_jar_same s : with_cookie_jar (cookie_jar s) s = s.
Proof. now destruct s. Qed.

Lemma for_cookies_jar_eq from_dict l :
  forall w s,
    for_cookies from_dict l w s
    = (with_cookie_jar (for_cookies_jar from_dict l w (cookie_jar s)).1 s,
       (for_cookies_jar from_dict l w (cookie_jar s)).2).
Proof.
  induction l as [|c l IH]; intros w s.
  - simpl. now rewrite with_cookie_jar_same.
  - destruct c; simpl; try now rewrite with_cookie_jar_same.
    run. unfold cookie_jar_set.
    destruct (RequestsCookieJar.set (mark_cookie from_dict w d).2 (cookie_jar s))
      as [jar'|e]; simpl; [|now rewrite with_cookie_jar_same].
    rewrite IH. simpl.
    destruct (for_cookies_jar from_dict l (mark_cookie from_dict w d).1 jar')
      as [jar'' [r|e]]; reflexivity.
Qed.


(** ** The warning *)









(** ** Encoding the cookie field *)

Lemma materialize_cookie_name c :
  PyDict.get "name" (materialize_cookie c) = Some (Str (Cookie.name c)).
Proof. unfold materialize_cookie. destruct (_ && _); reflexivity. Qed.

Lemma In_set {V : Type} (k k' : string) (v v' : V) (d : list (string * V)) :
  In (k, v) (PyDict.set k' v' d) -> (k, v) = (k', v') \/ In (k, v) d.
Proof.
  induction d as [|[k0 v0] d IH]; simpl.
  - intros [H|[]]. left. now symmetry.
  - destruct (String.eqb k0 k'); simpl; intros [H|H]; auto.
    destruct (IH H); auto.
Qed.

Lemma mem_set {V : Type} (k k' : string) (v' : V) (d : list (string * V)) :
  PyDict.mem k d = true -> PyDict.mem k (PyDict.set k' v' d) = true.
Proof.
  unfold PyDict.mem. rewrite get_set. now destruct (String.eqb k' k).
Qed.

Lemma by_name_materialized jar :
  forall acc,
    exists mapping,
      by_name (map materialize_cookie jar) acc = Ok mapping
      /\ (forall k v, In (k, v) mapping ->
            In (k, v) acc
            \/ exists c, In c jar /\ k = Cookie.name c
                 /\ v = Dict (PyDict.remove "name" (materialize_cookie c)))
      /\ (forall k, PyDict.mem k acc = true -> PyDict.mem k mapping = true)
      /\ (forall c, In c jar -> PyDict.mem (Cookie.name c) mapping = true).
Proof.
  induction jar as [|c jar IH]; intros acc; simpl.
  - exists acc. repeat split; auto.
  - rewrite materialize_cookie_name.
    destruct (IH (PyDict.set (Cookie.name c)
                    (Dict (PyDict.remove "name" (materialize_cookie c))) acc))
      as (mapping & Hrun & Hin & Hacc & Hjar).
    exists mapping. split; [exact Hrun|]. split; [|split].
    + intros k v H. destruct (Hin k v H) as [H'|(c' & Hc' & E)].
      * apply In_set in H' as [H'|H']; [|now left].
        inversion H'; subst. right. exists c. auto.
      * right. exists c'. split; [now right | exact E].
    + intros k H. now apply Hacc, mem_set.
    + intros c' [<-|H]; [|now apply Hjar].
      apply Hacc. unfold PyDict.mem. rewrite get_set, String.eqb_refl. reflexivity.
Qed.

(** C5: on save the cookie field is computed from the live cookie jar and
    from nothing else of the data than the shape of its cookie field: two
    data dictionaries whose cookie fields have the same shape get the same
    saved field.  When the field in the data is mapping-shaped the saved
    field is a mapping that has a key for the name of every cookie in the
    jar, each key bound to the remaining attributes of a cookie of that
    name; otherwise it is the list of the records of the jar. *)
Theorem cookies_field_on_save (data : dict) (s : Session) :
  (post_process_data data s).1 = s
  /\ (exists field, saved_cookies data s = Some field
        /\ (post_process_data data s).2 = Ok (PyDict.set "cookies" field data))
  /\ (forall data',
        isinstance_dict (PyDict.get "cookies" data')
        = isinstance_dict (PyDict.get "cookies" data) ->
        saved_cookies data' s = saved_cookies data s)
  /\ (isinstance_dict (PyDict.get "cookies" data) = true ->
      exists mapping,
        saved_cookies data s = Some (Dict mapping)
        /\ (forall k v, In (k, v) mapping ->
              exists c, In c (cookie_jar s) /\ k = Cookie.name c
                /\ v = Dict (PyDict.remove "name" (materialize_cookie c)))
        /\ (forall c, In c (cookie_jar s) ->
              PyDict.mem (Cookie.name c) mapping = true))
  /\ (isinstance_dict (PyDict.get "cookies" data) = false ->
      saved_cookies data s
      = Some (List (map (fun c => Dict (materialize_cookie c)) (cookie_jar s)))).
Proof.
  destruct (by_name_materialized (cookie_jar s) []) as (mapping & Hrun & Hin & _ & Hjar).
  assert (Hsaved : forall d,
             saved_cookies d s
             = Some (if isinstance_dict (PyDict.get "cookies" d)
                     then Dict mapping
                     else List (map (fun c => Dict (materialize_cookie c))
                                  (cookie_jar s)))
             /\ (post_process_data d s).2
                = Ok (PyDict.set "cookies"
                        (if isinstance_dict (PyDict.get "cookies" d)
                         then Dict mapping
                         else List (map (fun c => Dict (materialize_cookie c))
                                      (cookie_jar s))) d)).
  { intros d. unfold saved_cookies, post_process_data.
    destruct (isinstance_dict (PyDict.get "cookies" d)).
    - rewrite Hrun. simpl. now rewrite get_set.
    - simpl. rewrite get_set, map_map. simpl. split; reflexivity. }
  split; [apply post_process_data_session|].
  split; [eexists; apply Hsaved|].
  split; [intros data' E; rewrite (proj1 (Hsaved data')), (proj1 (Hsaved data)), E;
          reflexivity|].
  split.
  - intros E. exists mapping. rewrite (proj1 (Hsaved data)), E.
    split; [reflexivity|]. split; [|exact Hjar].
    intros k v H. destruct (Hin k v H) as [[]|H']. exact H'.
  - intros E. now rewrite (proj1 (Hsaved data)), E.
Qed.

(** ** Round trip through the list shape *)


Lemma eqb_empty (d : string) :
  String.eqb d "" = match d with EmptyString => true | _ => false end.
Proof. now destruct d. Qed.












(** ** Merging request headers *)

Lemma ignored_not_cookie name :
  Str.lower name = "cookie" -> ignored_prefix name = false.
Proof. unfold ignored_prefix. now intros ->. Qed.

Lemma cookie_kept (item : string * HeaderValue) :
  Str.lower item.1 = "cookie" -> kept item = true.
Proof.
  intros H. unfold kept, dropped. rewrite (ignored_not_cookie _ H), H. reflexivity.
Qed.

Lemma filter_filter_implied {A : Type} (f g : A -> bool) (l : list A) :
  (forall x, f x = true -> g x = true) ->
  List.filter f (List.filter g l) = List.filter f l.
Proof.
  intros H. induction l as [|x l IH]; simpl; [reflexivity|].
  destruct (g x) eqn:Eg; simpl.
  - now rewrite IH.
  - destruct (f x) eqn:Ef; [|exact IH]. apply H in Ef. congruence.
Qed.

Lemma filter_comm {A : Type} (f g : A -> bool) (l : list A) :
  List.filter f (List.filter g l) = List.filter g (List.filter f l).
Proof.
  induction l as [|x l IH]; simpl; [reflexivity|].
  destruct (g x) eqn:Eg, (f x) eqn:Ef; simpl; rewrite ?Eg, ?Ef, IH; reflexivity.
Qed.

Lemma getall_kept name (rh : list (string * HeaderValue)) :
  Str.lower name = "cookie" ->
  HTTPHeadersDict.getall name (List.filter kept rh) = HTTPHeadersDict.getall name rh.
Proof.
  intros H. unfold HTTPHeadersDict.getall. f_equal.
  apply filter_filter_implied. intros item Hitem. apply cookie_kept.
  unfold HTTPHeadersDict.same_name in Hitem. apply String.eqb_eq in Hitem.
  congruence.
Qed.

(** A dropped header changes nothing. *)
Lemma update_header_dropped SimpleCookie st item :
  dropped item = true -> update_header SimpleCookie st item = st.
Proof.
  destruct item as [name value]. unfold dropped, update_header. simpl.
  intros H. destruct value as [|v|v]; [reflexivity| |];
    simpl in *;
    (destruct (String.eqb (Str.lower name) "user-agent"
               && Str.startswith v "HTTPie/"); [reflexivity|];
     rewrite orb_false_r in H;
     destruct (String.eqb (Str.lower name) "cookie") eqn:E;
     [apply String.eqb_eq, ignored_not_cookie in E; congruence|];
     now rewrite H).
Qed.

(** A kept header acts the same whether or not the dropped headers are
    present. *)
Lemma update_header_kept SimpleCookie st st' item :
  same_merge st st' ->
  same_merge (update_header SimpleCookie st item)
    (update_header SimpleCookie st' item).
Proof.
  intros (Hh & Hj & Hr). destruct item as [name value].
  unfold update_header. simpl.
  destruct value as [|v|v]; [repeat split; assumption| |];
    simpl;
    (destruct (String.eqb (Str.lower name) "user-agent"
               && Str.startswith v "HTTPie/"); [repeat split; assumption|];
     destruct (String.eqb (Str.lower name) "cookie") eqn:E;
     [ apply String.eqb_eq in E; rewrite Hr, (getall_kept name _ E), Hj;
       destruct (1 <? _)%nat; repeat split; simpl; try assumption;
       unfold HTTPHeadersDict.popall; apply filter_comm
     | destruct (ignored_prefix name); repeat split; simpl; congruence ]).
Qed.

Lemma merge_loop_without_dropped SimpleCookie l :
  forall st st',
    same_merge st st' ->
    same_merge (fold_left (update_header SimpleCookie) l st)
      (fold_left (update_header SimpleCookie) (List.filter kept l) st').
Proof.
  induction l as [|item l IH]; intros st st' H; [exact H|].
  simpl. unfold kept at 1. destruct (dropped item) eqn:E; simpl.
  - rewrite update_header_dropped by exact E. now apply IH.
  - apply IH. now apply update_header_kept.
Qed.

(** C9: a header whose name starts with "Content-" or "If-", compared
    case-insensitively, is never stored, and a [User-Agent] whose incoming
    value is the tool's own agent string never replaces the stored one:
    processing such a header leaves the merge state as it is, and the
    session after the merge is the one obtained from the incoming headers
    with those headers taken out. *)
Theorem ignored_headers_not_stored (SimpleCookie : string -> list Morsel.t)
    (request_headers : list (string * HeaderValue)) (s : Session) :
  (forall name value,
      Str.startswith (Str.lower name) "content-" = true
      \/ Str.startswith (Str.lower name) "if-" = true ->
      dropped (name, value) = true)
  /\ (forall name value,
        Str.lower name = "user-agent" ->
        Str.startswith (decode value) "HTTPie/" = true ->
        dropped (name, value) = true)
  /\ (forall st item,
        dropped item = true -> update_header SimpleCookie st item = st)
  /\ (update_headers SimpleCookie request_headers s).1
     = (update_headers SimpleCookie (List.filter kept request_headers) s).1.
Proof.
  split; [|split; [|split]].
  - intros name value H.
    unfold dropped, ignored_prefix, SESSION_IGNORED_HEADER_PREFIXES.
    cbn [existsb fst].
    change (Str.lower "Content-") with "content-".
    change (Str.lower "If-") with "if-".
    destruct H as [-> | ->]; [reflexivity | now rewrite !orb_true_r].
  - intros name value Hn Hv. unfold dropped. cbn [fst snd].
    rewrite Hn, Hv. apply orb_true_r.
  - intros st item. apply update_header_dropped.
  - unfold update_headers.
    destruct (merge_loop_without_dropped SimpleCookie request_headers
                (mkMergeState (headers_property s) (cookie_jar s) request_headers)
                (mkMergeState (headers_property s) (cookie_jar s)
                   (List.filter kept request_headers)))
      as (Hh & Hj & _); [repeat split|].
    cbn [fst]. now rewrite Hh, Hj.
Qed.

(** The stored [User-Agent] of the spec's example survives the tool's
    default agent string. *)
Example custom_user_agent_survives SimpleCookie s :
  headers s = [("User-Agent", "MyClient/1.0")] ->
  headers (update_headers SimpleCookie [("User-Agent", HStr "HTTPie/3.2.1")] s).1
  = [("User-Agent", "MyClient/1.0")].
Proof. intros H. unfold update_headers, headers_property. rewrite H. reflexivity. Qed.

(** *** [Cookie] headers *)

(** A [Cookie] header is not stored as a header, and its cookies go to the
    jar with the default path when they carry none. *)
Lemma cookie_header_folded SimpleCookie st name value :
  Str.lower name = "cookie" ->
  value <> HNone ->
  st_headers (update_header SimpleCookie st (name, value)) = st_headers st
  /\ st_cookie_jar (update_header SimpleCookie st (name, value))
     = fold_left
         (fun j morsel => RequestsCookieJar.set_morsel (default_path morsel) j)
         (SimpleCookie (decode value)) (st_cookie_jar st).
Proof.
  intros Hn Hv. unfold update_header. simpl. rewrite Hn. simpl.
  destruct value as [|v|v]; [congruence| |]; simpl;
    destruct (1 <? _)%nat; split; reflexivity.
Qed.

Lemma default_path_root morsel :
  Morsel.path morsel = "" -> Morsel.path (default_path morsel) = "/".
Proof. intros H. unfold default_path. rewrite H. reflexivity. Qed.

(** The only [Cookie] header of the incoming map is removed from it. *)
Example single_cookie_header_removed SimpleCookie s :
  (update_headers SimpleCookie [("Cookie", HStr "a=1; b=2")] s).2 = [].
Proof. reflexivity. Qed.

(** C4 at the failing input: with two [Cookie] headers in the incoming map,
    both are consumed and both are still in the map after the merge. *)
Theorem two_cookie_headers_both_remain (SimpleCookie : string -> list Morsel.t)
    (s : Session) :
  (update_headers SimpleCookie
     [("Cookie", HStr "a=1"); ("Cookie", HStr "b=2")] s).2
  = [("Cookie", HStr "a=1"); ("Cookie", HStr "b=2")]
  /\ cookie_jar (update_headers SimpleCookie
                   [("Cookie", HStr "a=1"); ("Cookie", HStr "b=2")] s).1
     = fold_left
         (fun j morsel => RequestsCookieJar.set_morsel (default_path morsel) j)
         (SimpleCookie "a=1" ++ SimpleCookie "b=2") (cookie_jar s).
Proof.
  split; [reflexivity|].
  unfold update_headers. simpl. now rewrite fold_left_app.
Qed.

(** * Worked instances *)


Lemma explicit_null_domain_is_secure_witness :
  PyDict.get "domain" null_domain_record = Some None_
  /\ mark_cookie true false null_domain_record
     = (false, explicit_none null_domain_record)
  /\ exists c, In c (cookie_jar loaded_session) /\ Cookie.domain c = ""
               /\ Cookie.is_explicit_none c = true.
Proof.
  pose proof (explicit_null_domain_is_secure true false null_domain_record eq_refl)
    as (Hmark & _ & Hjar & _).
  split; [reflexivity|]. split; [exact Hmark|].
  destruct (Hjar [] [Cookie.mk "sid" (Some "1") "" "/" None false
                       [("is_explicit_none", Bool true)]] eq_refl)
    as [(c & [<-|[]] & Hd & Hn)|[Hvalue _]]; [|discriminate].
  eexists. split; [left; reflexivity|]. split; reflexivity.
Defined.


Lemma cookies_field_on_save_witness :
  (isinstance_dict (PyDict.get "cookies" legacy_data) = true
   /\ exists mapping,
        saved_cookies legacy_data loaded_session = Some (Dict mapping)
        /\ PyDict.mem "sid" mapping = true /\ PyDict.mem "t" mapping = true)
  /\ (isinstance_dict (PyDict.get "cookies" current_data) = false
      /\ saved_cookies current_data loaded_session
         = Some (List (map (fun c => Dict (materialize_cookie c))
                         (cookie_jar loaded_session))))
  /\ saved_cookies [("cookies", Dict [])] loaded_session
     = saved_cookies legacy_data loaded_session.
Proof.
  split; [|split].
  - split; [reflexivity|].
    destruct (cookies_field_on_save legacy_data loaded_session)
      as (_ & _ & _ & Hmapping & _).
    destruct (Hmapping eq_refl) as (mapping & Hsaved & _ & Hnames).
    exists mapping. split; [exact Hsaved|]. split.
    + apply (Hnames (Cookie.mk "sid" (Some "1") "" "/" None false
                       [("is_explicit_none", Bool true)])).
      left. reflexivity.
    + apply (Hnames (Cookie.mk "t" (Some "2") "example.com" "/" None false
                       [("HttpOnly", None_)])).
      right. left. reflexivity.
  - split; [reflexivity|].
    exact (proj2 (proj2 (proj2 (proj2
             (cookies_field_on_save current_data loaded_session)))) eq_refl).
  - exact (proj1 (proj2 (proj2
             (cookies_field_on_save legacy_data loaded_session)))
             [("cookies", Dict [])] eq_refl).
Defined.




Lemma ignored_headers_not_stored_witness :
  dropped ("Content-Type", HStr "application/json") = true
  /\ dropped ("If-None-Match", HBytes "abc") = true
  /\ dropped ("user-agent", HStr "HTTPie/3.2.1") = true
  /\ headers
       (update_headers (fun _ => [])
          [("Content-Type", HStr "application/json");
           ("If-None-Match", HBytes "abc");
           ("X-Token", HStr "t");
           ("User-Agent", HStr "HTTPie/3.2.1")] agent_session).1
     = [("User-Agent", "MyClient/1.0"); ("X-Token", "t")].
Proof.
  destruct (ignored_headers_not_stored (fun _ => [])
              [("Content-Type", HStr "application/json");
               ("If-None-Match", HBytes "abc");
               ("X-Token", HStr "t");
               ("User-Agent", HStr "HTTPie/3.2.1")] agent_session)
    as (Hprefix & Hagent & _ & Hmerge).
  split; [exact (Hprefix "Content-Type" _ (or_introl eq_refl))|].
  split; [exact (Hprefix "If-None-Match" _ (or_intror eq_refl))|].
  split; [exact (Hagent "user-agent" (HStr "HTTPie/3.2.1") eq_refl eq_refl)|].
  rewrite Hmerge. reflexivity.
Defined.

(** * Further properties *)

(** ** Multi-maps *)

Section MultiMapFacts.
Context {V : Type}.
Implicit Types (h : list (string * V)) (name : string) (v : V).

Lemma same_name_refl name : HTTPHeadersDict.same_name name name = true.
Proof. apply String.eqb_refl. Qed.

Lemma same_name_trans_false name name' k :
  HTTPHeadersDict.same_name k name' = true ->
  HTTPHeadersDict.same_name name' name = false ->
  HTTPHeadersDict.same_name k name = false.
Proof.
  unfold HTTPHeadersDict.same_name. intros H1 H2.
  apply String.eqb_eq in H1. now rewrite H1.
Qed.

Lemma find_filter_implied {A : Type} (f g : A -> bool) (l : list A) :
  (forall x, f x = true -> g x = true) ->
  List.find f (List.filter g l) = List.find f l.
Proof.
  intros H. induction l as [|x l IH]; simpl; [reflexivity|].
  destruct (g x) eqn:Eg; simpl.
  - now rewrite IH.
  - destruct (f x) eqn:Ef; [|exact IH]. apply H in Ef. congruence.
Qed.


Lemma first_entry_setitem_other name name' v' h :
  HTTPHeadersDict.same_name name' name = false ->
  first_entry name (HTTPHeadersDict.setitem name' v' h) = first_entry name h.
Proof.
  intros Hne. unfold first_entry. induction h as [|[k v0] h IH]; simpl.
  - now rewrite Hne.
  - destruct (HTTPHeadersDict.same_name k name') eqn:E; simpl.
    + rewrite Hne, (same_name_trans_false _ _ _ E Hne).
      unfold HTTPHeadersDict.popall. apply find_filter_implied.
      intros [k1 v1] H1. simpl in *.
      destruct (HTTPHeadersDict.same_name k1 name') eqn:E1; [|reflexivity].
      now rewrite (same_name_trans_false _ _ _ E1 Hne) in H1.
    + destruct (HTTPHeadersDict.same_name k name); [reflexivity | exact IH].
Qed.

Lemma getone_first_entry name h :
  HTTPHeadersDict.getone name h = option_map snd (first_entry name h).
Proof.
  unfold HTTPHeadersDict.getone, HTTPHeadersDict.getall, first_entry.
  induction h as [|[k v0] h IH]; simpl; [reflexivity|].
  destruct (HTTPHeadersDict.same_name k name); [reflexivity | exact IH].
Qed.

Lemma getone_of_key k h :
  In k (map fst h) -> exists v, HTTPHeadersDict.getone k h = Some v.
Proof.
  rewrite getone_first_entry. unfold first_entry.
  induction h as [|[k0 v0] h IH]; simpl; [intros []|].
  intros [->|H].
  - rewrite same_name_refl. eauto.
  - destruct (HTTPHeadersDict.same_name k0 k); [eauto | now apply IH].
Qed.

Lemma first_entry_key name h kv :
  first_entry name h = Some kv -> In kv.1 (map fst h).
Proof.
  unfold first_entry. intros H. apply List.find_some in H as [H _].
  now apply in_map.
Qed.

(** [dict(h)] binds every stored key to the first value of its name. *)
Lemma to_dict_fold_get k h (ks : list string) :
  forall acc,
    (forall k0, In k0 ks -> In k0 (map fst h)) ->
    PyDict.get k
      (fold_left
         (fun d k0 => match HTTPHeadersDict.getone k0 h with
                      | Some v => PyDict.set k0 v d
                      | None => d
                      end) ks acc)
    = if existsb (String.eqb k) ks then HTTPHeadersDict.getone k h
      else PyDict.get k acc.
Proof.
  induction ks as [|k0 ks IH]; intros acc Hks; simpl; [reflexivity|].
  destruct (getone_of_key k0 h (Hks k0 (or_introl eq_refl))) as [v Hv].
  rewrite Hv, IH by (intros k1 H1; apply Hks; now right).
  rewrite get_set, (String.eqb_sym k0 k).
  destruct (String.eqb k k0) eqn:E; simpl; [|reflexivity].
  apply String.eqb_eq in E. subst k0. rewrite Hv.
  now destruct (existsb (String.eqb k) ks).
Qed.

Lemma to_dict_get k h :
  PyDict.get k (HTTPHeadersDict.to_dict h)
  = if existsb (String.eqb k) (map fst h) then HTTPHeadersDict.getone k h
    else None.
Proof. unfold HTTPHeadersDict.to_dict. now rewrite to_dict_fold_get. Qed.

End MultiMapFacts.

(** ** More on merging request headers *)

Section MergeFacts.
Variable SimpleCookie : string -> list Morsel.t.

Lemma update_header_unset st item :
  is_unset item = true -> update_header SimpleCookie st item = st.
Proof.
  destruct item as [name [|v|v]]; unfold is_unset; simpl;
    [reflexivity | discriminate | discriminate].
Qed.

Lemma update_header_storable st item :
  storable item = true ->
  update_header SimpleCookie st item
  = mkMergeState
      (HTTPHeadersDict.setitem item.1 (decode item.2) (st_headers st))
      (st_cookie_jar st) (st_request_headers st).
Proof.
  destruct item as [name value].
  unfold storable, is_unset, dropped, is_cookie_header, update_header. simpl.
  rewrite !andb_true_iff, !negb_true_iff, orb_false_iff.
  intros [[Hset [Hign Hua]] Hcookie].
  destruct value as [|v|v]; [discriminate| |]; simpl in *;
    now rewrite Hua, Hcookie, Hign.
Qed.

(** The headers and the jar a step leaves depend on the headers and the jar
    it finds, not on the state of the caller's [request_headers]. *)
Lemma update_header_portable st st' item :
  st_headers st' = st_headers st ->
  st_cookie_jar st' = st_cookie_jar st ->
  st_headers (update_header SimpleCookie st' item)
  = st_headers (update_header SimpleCookie st item)
  /\ st_cookie_jar (update_header SimpleCookie st' item)
     = st_cookie_jar (update_header SimpleCookie st item).
Proof.
  intros Hh Hj. destruct item as [name value]. unfold update_header. simpl.
  destruct value as [|v|v]; [now split| |]; simpl;
    (destruct (String.eqb (Str.lower name) "user-agent"
               && Str.startswith v "HTTPie/"); [now split|];
     destruct (String.eqb (Str.lower name) "cookie");
     [ destruct (1 <? _)%nat, (1 <? _)%nat; simpl; rewrite Hj; now split
     | destruct (ignored_prefix name); simpl; rewrite ?Hh; now split ]).
Qed.

Lemma merge_loop_portable (keep : string * HeaderValue -> bool) l :
  (forall st item, keep item = false -> update_header SimpleCookie st item = st) ->
  forall st st',
    st_headers st' = st_headers st ->
    st_cookie_jar st' = st_cookie_jar st ->
    st_headers (fold_left (update_header SimpleCookie) (List.filter keep l) st')
    = st_headers (fold_left (update_header SimpleCookie) l st)
    /\ st_cookie_jar
         (fold_left (update_header SimpleCookie) (List.filter keep l) st')
       = st_cookie_jar (fold_left (update_header SimpleCookie) l st).
Proof.
  intros Hkeep. induction l as [|item l IH]; intros st st' Hh Hj; [now split|].
  simpl. destruct (keep item) eqn:E; simpl.
  - destruct (update_header_portable st st' item Hh Hj) as [Hh' Hj'].
    now apply IH.
  - rewrite (Hkeep st item E). now apply IH.
Qed.

Lemma merge_headers_fold l :
  forall st,
    st_headers (fold_left (update_header SimpleCookie) l st)
    = fold_left
        (fun h item => HTTPHeadersDict.setitem item.1 (decode item.2) h)
        (List.filter storable l) (st_headers st).
Proof.
  induction l as [|item l IH]; intros st; [reflexivity|].
  simpl. rewrite IH. destruct (storable item) eqn:E; simpl.
  - now rewrite update_header_storable by exact E.
  - f_equal. destruct item as [name value].
    unfold storable, is_unset, dropped, is_cookie_header in E.
    unfold update_header. simpl in *.
    destruct value as [|v|v]; [reflexivity| |]; simpl in *;
      (destruct (String.eqb (Str.lower name) "user-agent"
                 && Str.startswith v "HTTPie/"); [reflexivity|];
       destruct (String.eqb (Str.lower name) "cookie");
       [ now destruct (1 <? _)%nat
       | destruct (ignored_prefix name); [reflexivity | discriminate] ]).
Qed.



(** X2: a header whose value is [None] is skipped: the session after the
    merge is the one the incoming headers without the unset ones give. *)
Theorem unset_headers_skipped (request_headers : list (string * HeaderValue))
    (s : Session) :
  (update_headers SimpleCookie request_headers s).1
  = (update_headers SimpleCookie
       (List.filter (fun item => negb (is_unset item)) request_headers) s).1.
Proof.
  unfold update_headers. cbn [fst].
  destruct (merge_loop_portable (fun item => negb (is_unset item)) request_headers)
    with (st := mkMergeState (headers_property s) (cookie_jar s) request_headers)
         (st' := mkMergeState (headers_property s) (cookie_jar s)
                   (List.filter (fun item => negb (is_unset item)) request_headers))
    as [Hh Hj]; try reflexivity.
  - intros st item H. apply update_header_unset. now apply negb_false_iff.
  - now rewrite Hh, Hj.
Qed.
End MergeFacts.

(** *** The jar and the caller's headers *)

Section MergeCookieFacts.
Variable SimpleCookie : string -> list Morsel.t.

Lemma consumed_cases (item : string * HeaderValue) :
  (consumed item = true /\ String.eqb (Str.lower item.1) "cookie" = true
   /\ item.2 <> HNone)
  \/ (consumed item = false
      /\ (item.2 = HNone \/ String.eqb (Str.lower item.1) "cookie" = false)).
Proof.
  destruct item as [name value]. unfold consumed, is_cookie_header, is_unset.
  simpl. destruct (String.eqb (Str.lower name) "cookie"), value; simpl;
    first [ left; repeat split; congruence | right; split; auto ].
Qed.

Lemma update_header_consumed st item :
  consumed item = true ->
  update_header SimpleCookie st item
  = mkMergeState (st_headers st)
      (fold_left
         (fun j morsel => RequestsCookieJar.set_morsel (default_path morsel) j)
         (SimpleCookie (decode item.2)) (st_cookie_jar st))
      (if (1 <? length (HTTPHeadersDict.getall item.1 (st_request_headers st)))%nat
       then st_request_headers st
       else HTTPHeadersDict.popall item.1 (st_request_headers st)).
Proof.
  intros H. destruct (consumed_cases item) as [(_ & Hc & Hv)|[H' _]];
    [|congruence].
  destruct item as [name value]. unfold update_header. simpl in *.
  apply String.eqb_eq in Hc. rewrite Hc. simpl.
  destruct value as [|v|v]; [congruence| |]; simpl; now destruct (1 <? _)%nat.
Qed.

Lemma update_header_not_consumed st item :
  consumed item = false ->
  st_cookie_jar (update_header SimpleCookie st item) = st_cookie_jar st
  /\ st_request_headers (update_header SimpleCookie st item)
     = st_request_headers st.
Proof.
  intros H. destruct (consumed_cases item) as [(H' & _)|(_ & Hc)]; [congruence|].
  destruct item as [name value]. unfold update_header. simpl in *.
  destruct value as [|v|v]; [now split| |]; simpl;
    (destruct Hc as [Hc|Hc]; [discriminate|]; rewrite Hc;
     destruct (String.eqb (Str.lower name) "user-agent"
               && Str.startswith v "HTTPie/"); [now split|];
     destruct (ignored_prefix name); now split).
Qed.

Lemma merge_jar_fold l :
  forall st,
    st_cookie_jar (fold_left (update_header SimpleCookie) l st)
    = fold_left
        (fun j morsel => RequestsCookieJar.set_morsel (default_path morsel) j)
        (flat_map (fun item => SimpleCookie (decode item.2))
           (List.filter consumed l))
        (st_cookie_jar st).
Proof.
  induction l as [|item l IH]; intros st; [reflexivity|].
  simpl. rewrite IH. destruct (consumed item) eqn:E; simpl.
  - rewrite fold_left_app. now rewrite update_header_consumed by exact E.
  - now rewrite (proj1 (update_header_not_consumed st item E)).
Qed.


Lemma In_set_cookie c c0 jar :
  In c (RequestsCookieJar.set_cookie c0 jar) -> c = c0 \/ In c jar.
Proof.
  induction jar as [|c' jar IH]; simpl.
  - intros [H|[]]. now left.
  - destruct (RequestsCookieJar.same_key c' c0); simpl.
    + intros [H|H]; [now left | right; now right].
    + intros [H|H]; [right; now left|].
      destruct (IH H); [now left | right; now right].
Qed.

Lemma default_path_nonempty morsel :
  Morsel.path (default_path morsel) <> "".
Proof.
  unfold default_path. destruct (Morsel.path morsel) eqn:E; simpl.
  - discriminate.
  - rewrite E. discriminate.
Qed.

Lemma fold_morsels_paths morsels :
  forall jar c,
    In c (fold_left
            (fun j morsel => RequestsCookieJar.set_morsel (default_path morsel) j)
            morsels jar) ->
    In c jar \/ Cookie.path c <> "".
Proof.
  induction morsels as [|m morsels IH]; intros jar c H; [now left|].
  simpl in H. apply IH in H as [H|H]; [|now right].
  apply In_set_cookie in H as [->|H]; [right | now left].
  apply default_path_nonempty.
Qed.

(** X4: every cookie the jar holds after the merge was in the jar before it
    or has a non-empty path. *)
Theorem merged_cookies_have_a_path
    (request_headers : list (string * HeaderValue)) (s : Session) (c : Cookie.t) :
  In c (cookie_jar (update_headers SimpleCookie request_headers s).1) ->
  In c (cookie_jar s) \/ Cookie.path c <> "".
Proof.
  unfold update_headers. cbn [fst cookie_jar with_headers with_cookie_jar].
  rewrite merge_jar_fold. apply fold_morsels_paths.
Qed.


Lemma filter_none {A : Type} (f : A -> bool) (l : list A) :
  (forall x, In x l -> f x = false) -> List.filter f l = [].
Proof.
  induction l as [|x l IH]; intros H; simpl; [reflexivity|].
  rewrite (H x (or_introl eq_refl)). apply IH. intros y Hy. apply H. now right.
Qed.


End MergeCookieFacts.

(** *** Headers the incoming map does not name *)

Section MergeFrame.
Variable SimpleCookie : string -> list Morsel.t.

Lemma keys_setitem {V : Type} (k name : string) (v : V) (h : list (string * V)) :
  In k (map fst (HTTPHeadersDict.setitem name v h)) ->
  k = name \/ In k (map fst h).
Proof.
  induction h as [|[k0 v0] h IH]; simpl.
  - intros [H|[]]. now left.
  - destruct (HTTPHeadersDict.same_name k0 name); simpl.
    + intros [H|H]; [now left|]. right. right.
      unfold HTTPHeadersDict.popall in H.
      apply in_map_iff in H as (x & Hx & Hin).
      apply List.filter_In in Hin as [Hin _]. subst k. now apply in_map.
    + intros [H|H]; [right; now left|].
      destruct (IH H); [now left | right; now right].
Qed.

Lemma distinct_first_entry {V : Type} (k : string) (v : V) (h : list (string * V)) :
  distinct_names h -> In (k, v) h -> first_entry k h = Some (k, v).
Proof.
  unfold distinct_names, first_entry.
  induction h as [|[k0 v0] h IH]; simpl; [intros _ []|].
  intros Hd Hin. apply List.NoDup_cons_iff in Hd as [Hnotin Hd].
  destruct Hin as [Hin|Hin].
  - inversion Hin; subst. now rewrite same_name_refl.
  - destruct (HTTPHeadersDict.same_name k0 k) eqn:E; [|now apply IH].
    exfalso. apply Hnotin. unfold HTTPHeadersDict.same_name in E.
    apply String.eqb_eq in E. rewrite E.
    now apply (in_map (fun kv : string * V => Str.lower kv.1) h (k, v)).
Qed.

Lemma get_In {V : Type} (k : string) (h : list (string * V)) :
  In k (map fst h) -> exists v, PyDict.get k h = Some v /\ In (k, v) h.
Proof.
  induction h as [|[k0 v0] h IH]; simpl; [intros []|].
  destruct (String.eqb k0 k) eqn:E.
  - apply String.eqb_eq in E. subst. intros _. exists v0. split; auto.
  - intros [H|H]; [subst; now rewrite String.eqb_refl in E|].
    destruct (IH H) as (v & Hv & Hin). exists v. split; auto.
Qed.

(** With distinct names, [dict(HTTPHeadersDict(d))] looks up like [d]. *)
Lemma fold_headers_lookup (k : string) (l : list (string * HeaderValue)) :
  forall h0 : list (string * string),
    (forall item, In item l -> HTTPHeadersDict.same_name item.1 k = false) ->
    first_entry k
      (fold_left
         (fun h item => HTTPHeadersDict.setitem item.1 (decode item.2) h) l h0)
    = first_entry k h0
    /\ (In k (map fst
                (fold_left
                   (fun h item => HTTPHeadersDict.setitem item.1 (decode item.2) h)
                   l h0)) ->
        In k (map fst h0)).
Proof.
  induction l as [|item l IH]; intros h0 Hl; [now split|].
  simpl.
  destruct (IH (HTTPHeadersDict.setitem item.1 (decode item.2) h0))
    as [Hfirst Hkeys]; [intros i Hi; apply Hl; now right|].
  pose proof (Hl item (or_introl eq_refl)) as Hne.
  split.
  - rewrite Hfirst. now apply first_entry_setitem_other.
  - intros H. apply Hkeys, keys_setitem in H as [->|H]; [|exact H].
    now rewrite same_name_refl in Hne.
Qed.

(** X6: a stored header whose name no incoming header that the merge
    stores has, up to case, keeps its value; a name absent before and not
    sent stays absent.  The stored names are distinct up to case. *)
Theorem merge_leaves_other_names
    (request_headers : list (string * HeaderValue)) (s : Session) (k : string) :
  distinct_names (headers s) ->
  (forall item, In item request_headers -> storable item = true ->
                HTTPHeadersDict.same_name item.1 k = false) ->
  PyDict.get k (headers (update_headers SimpleCookie request_headers s).1)
  = PyDict.get k (headers s).
Proof.
  intros Hd Hrh. unfold update_headers. cbn [fst headers with_headers].
  rewrite to_dict_get, merge_headers_fold. cbn [st_headers].
  destruct (fold_headers_lookup k (List.filter storable request_headers)
              (headers_property s)) as [Hfirst Hkeys].
  { intros item H. apply List.filter_In in H as [H1 H2]. now apply Hrh. }
  rewrite getone_first_entry, Hfirst. unfold headers_property, HTTPHeadersDict.of_dict in *.
  destruct (existsb (String.eqb k) (map fst (headers s))) eqn:E.
  - apply existsb_eqb_In in E. destruct (get_In k _ E) as (v & Hv & Hin).
    rewrite Hv, (distinct_first_entry k v _ Hd Hin). simpl.
    match goal with
    | |- context [existsb ?f ?l] => destruct (existsb f l) eqn:E'
    end; [reflexivity|].
    exfalso. apply not_true_iff_false in E'. apply E'. apply existsb_eqb_In.
    eapply (first_entry_key k _ (k, v)).
    rewrite Hfirst. now apply distinct_first_entry.
  - assert (Hnone : PyDict.get k (headers s) = None).
    { apply get_None_notin. unfold PyDict.keys. intros H.
      apply existsb_eqb_In in H. congruence. }
    rewrite Hnone.
    match goal with
    | |- context [existsb ?f ?l] => destruct (existsb f l) eqn:E'
    end; [|reflexivity].
    apply existsb_eqb_In, Hkeys, existsb_eqb_In in E'. congruence.
Qed.
End MergeFrame.

(** ** More on saving *)

Lemma set_set {V : Type} (k : string) (v v' : V) (d : list (string * V)) :
  PyDict.set k v (PyDict.set k v' d) = PyDict.set k v d.
Proof.
  induction d as [|[k0 v0] d IH]; simpl.
  - now rewrite String.eqb_refl.
  - destruct (String.eqb k0 k) eqn:E; simpl.
    + now rewrite String.eqb_refl.
    + now rewrite E, IH.
Qed.

Lemma set_fresh {V : Type} (k : string) (v : V) (d : list (string * V)) :
  ~ In k (PyDict.keys d) -> PyDict.set k v d = d ++ [(k, v)].
Proof.
  induction d as [|[k0 v0] d IH]; simpl; intros H; [reflexivity|].
  destruct (String.eqb k0 k) eqn:E.
  - apply String.eqb_eq in E. tauto.
  - rewrite IH; [reflexivity | tauto].
Qed.

Lemma keys_set {V : Type} (k : string) (v : V) (d : list (string * V)) :
  PyDict.keys (PyDict.set k v d)
  = if PyDict.mem k d then PyDict.keys d else PyDict.keys d ++ [k].
Proof.
  unfold PyDict.mem. induction d as [|[k0 v0] d IH]; simpl; [reflexivity|].
  destruct (String.eqb k0 k) eqn:E; simpl.
  - apply String.eqb_eq in E. now subst.
  - rewrite IH. now destruct (PyDict.get k d).
Qed.

Lemma mem_In {V : Type} (k : string) (d : list (string * V)) :
  PyDict.mem k d = true <-> In k (PyDict.keys d).
Proof.
  unfold PyDict.mem. split.
  - destruct (PyDict.get k d) eqn:E; [|discriminate]. intros _.
    destruct (in_dec string_dec k (PyDict.keys d)) as [H|H]; [exact H|].
    apply get_None_notin in H. congruence.
  - intros H. destruct (get_In k d H) as (v & -> & _). reflexivity.
Qed.

Lemma wf_set {V : Type} (k : string) (v : V) (d : list (string * V)) :
  PyDict.wf d -> PyDict.wf (PyDict.set k v d).
Proof.
  unfold PyDict.wf. intros H. rewrite keys_set.
  destruct (PyDict.mem k d) eqn:E; [exact H|].
  apply NoDup_app. split; [exact H|]. split.
  - intros x Hx Hx'. apply list_elem_of_In in Hx, Hx'.
    destruct Hx' as [<-|[]]. apply mem_In in Hx. congruence.
  - apply NoDup_singleton.
Qed.

(** What the mapping built from a jar binds a name to. *)
Lemma by_name_get (name : string) (l : list Cookie.t) :
  forall acc mapping,
    by_name (map materialize_cookie l) acc = Ok mapping ->
    PyDict.get name mapping
    = match last_named name l with
      | Some c => Some (mapping_entry c).2
      | None => PyDict.get name acc
      end
    /\ (PyDict.wf acc -> PyDict.wf mapping).
Proof.
  induction l as [|c l IH]; intros acc mapping H; simpl in *.
  - inversion H; subst. now split.
  - rewrite materialize_cookie_name in H. apply IH in H as [Hget Hwf].
    split; [|intros Hacc; now apply Hwf, wf_set].
    rewrite Hget. destruct (last_named name l); [reflexivity|].
    rewrite get_set. now destruct (String.eqb (Cookie.name c) name).
Qed.

(** X7: saving in the mapping shape keeps one cookie for each name: the
    mapping binds a name to the remaining attributes of the last cookie of
    the jar that has this name, binds no other name, and its keys are
    pairwise distinct. *)
Theorem mapping_keeps_last_cookie_of_a_name (data : dict) (s : Session) :
  isinstance_dict (PyDict.get "cookies" data) = true ->
  exists mapping,
    saved_cookies data s = Some (Dict mapping)
    /\ PyDict.wf mapping
    /\ forall name,
         PyDict.get name mapping
         = option_map
             (fun c => Dict (PyDict.remove "name" (materialize_cookie c)))
             (last_named name (cookie_jar s)).
Proof.
  intros Hshape.
  destruct (by_name_materialized (cookie_jar s) []) as (mapping & Hrun & _).
  exists mapping. split; [|split].
  - unfold saved_cookies, post_process_data. rewrite Hshape, Hrun. simpl.
    now rewrite get_set.
  - apply (by_name_get "" _ _ _ Hrun). apply NoDup_nil. exact I.
  - intros name. rewrite (proj1 (by_name_get name _ _ _ Hrun)).
    now destruct (last_named name (cookie_jar s)).
Qed.

(** X8: saving never raises and saving what a save returned returns it
    again: the cookie field keeps the shape the first save gave it. *)
Theorem save_is_idempotent (data : dict) (s : Session) :
  exists saved,
    post_process_data data s = (s, Ok saved)
    /\ post_process_data saved s = (s, Ok saved).
Proof.
  destruct (by_name_materialized (cookie_jar s) []) as (mapping & Hrun & _).
  unfold post_process_data.
  destruct (isinstance_dict (PyDict.get "cookies" data)) eqn:E.
  - rewrite Hrun. eexists. split; [reflexivity|].
    rewrite get_set. simpl. now rewrite set_set.
  - eexists. split; [reflexivity|].
    rewrite get_set. simpl. now rewrite set_set.
Qed.

(** ** Round trip through the mapping shape *)








(** ** More on loading *)

Lemma comprehension_raises {A B : Type} (f : A -> result B) (e : exn)
    (l : list A) :
  (forall a, In a l -> f a = Raise e \/ exists b, f a = Ok b) ->
  (exists a, In a l /\ f a = Raise e) ->
  comprehension f l = Raise e.
Proof.
  induction l as [|x l IH]; intros Hall (a & Ha & Hf); [destruct Ha|].
  simpl. unfold mbind, result_bind.
  destruct (Hall x (or_introl eq_refl)) as [Hx|[b Hx]]; rewrite Hx; [reflexivity|].
  rewrite IH; [reflexivity | |].
  - intros y Hy. apply Hall. now right.
  - destruct Ha as [->|Ha]; [congruence|]. exists a. now split.
Qed.

(** X10: when some value of a mapping-shaped cookie field is not itself a
    mapping, the load raises before any cookie reaches the jar: the
    session is left as it was and nothing is logged. *)
Theorem load_mapping_with_bad_entry (data mapping : dict) (s : Session)
    (key : string) (value : Any) :
  PyDict.get "cookies" data = Some (Dict mapping) ->
  In (key, value) mapping ->
  (forall d, value <> Dict d) ->
  pre_process_data data s = (s, Raise TypeError).
Proof.
  intros Hc Hin Hbad. unfold pre_process_data, load_cookies. run. rewrite Hc.
  simpl. rewrite comprehension_raises with (e := TypeError); [reflexivity| |].
  - intros [k v] _. simpl. destruct v; eauto.
  - exists (key, value). split; [exact Hin|]. simpl.
    destruct value; try reflexivity. now destruct (Hbad d).
Qed.

Lemma for_cookies_jar_app from_dict l1 l2 :
  forall w jar,
    for_cookies_jar from_dict (l1 ++ l2) w jar
    = match for_cookies_jar from_dict l1 w jar with
      | (jar1, Ok r1) =>
          match for_cookies_jar from_dict l2 r1.1 jar1 with
          | (jar2, Ok r2) => (jar2, Ok (r2.1, r1.2 ++ r2.2))
          | (jar2, Raise e) => (jar2, Raise e)
          end
      | (jar1, Raise e) => (jar1, Raise e)
      end.
Proof.
  induction l1 as [|c l1 IH]; intros w jar.
  - simpl. now destruct (for_cookies_jar from_dict l2 w jar) as [j [[]|]].
  - destruct c; try reflexivity. cbn [app for_cookies_jar].
    destruct (RequestsCookieJar.set _ jar) as [jar'|]; [|reflexivity].
    rewrite IH.
    destruct (for_cookies_jar from_dict l1 _ jar') as [j1 [r1|]]; [|reflexivity].
    cbn [fst snd].
    destruct (for_cookies_jar from_dict l2 r1.1 j1) as [j2 [r2|]]; reflexivity.
Qed.

Lemma list_shape_flag l :
  forall w jar jar' r,
    for_cookies_jar false l w jar = (jar', Ok r) -> r.1 = w.
Proof.
  induction l as [|c l IH]; intros w jar jar' r H.
  - inversion H. reflexivity.
  - destruct c; try discriminate. cbn [for_cookies_jar] in H.
    destruct (RequestsCookieJar.set _ jar) as [j1|]; [|discriminate].
    destruct (for_cookies_jar false l _ j1) as [j2 [r2|]] eqn:E; [|discriminate].
    apply IH in E. inversion H; subst. cbn [fst]. rewrite E, mark_cookie_flag.
    simpl. apply orb_false_r.
Qed.

Lemma load_list_shaped data l s :
  pre_process_data (PyDict.set "cookies" (List l) data) s
  = match for_cookies_jar false l false (cookie_jar s) with
    | (jar, Ok r) =>
        (with_cookie_jar jar s,
         Ok (PyDict.set "cookies" (List r.2) data))
    | (jar, Raise e) => (with_cookie_jar jar s, Raise e)
    end.
Proof.
  unfold pre_process_data, load_cookies. run. rewrite get_set. simpl.
  rewrite for_cookies_jar_eq.
  destruct (for_cookies_jar false l false (cookie_jar s)) as [jar [r|e]] eqn:E;
    [|reflexivity].
  simpl. rewrite (list_shape_flag _ _ _ _ _ E).
  unfold issue_warning. simpl. now rewrite set_set.
Qed.

(** X11: a record of a list-shaped cookie field that is not a mapping makes
    the load raise when the loop reaches it: the records before it are in
    the jar, as a load of them alone leaves it, and nothing is logged. *)
Theorem load_aborts_at_malformed_record (data : dict) (good rest : list Any)
    (bad : Any) (s s1 : Session) (data1 : dict) :
  pre_process_data (PyDict.set "cookies" (List good) data) s = (s1, Ok data1) ->
  (forall c, bad <> Dict c) ->
  pre_process_data (PyDict.set "cookies" (List (good ++ bad :: rest)) data) s
  = (s1, Raise AttributeError).
Proof.
  rewrite !load_list_shaped, for_cookies_jar_app. intros H Hbad.
  destruct (for_cookies_jar false good false (cookie_jar s)) as [jar [r|e]];
    [|discriminate].
  inversion H; subst.
  destruct bad; try reflexivity. now destruct (Hbad d).
Qed.

Lemma mark_cookie_twice w c :
  mark_cookie false w (mark_cookie false w c).2
  = (w, (mark_cookie false w c).2).
Proof.
  unfold mark_cookie. rewrite !andb_false_r.
  destruct (is_None (default (Str "") (PyDict.get "domain" c))) eqn:E; simpl.
  - rewrite !get_set. reflexivity.
  - now rewrite E.
Qed.

Lemma for_cookies_jar_again l :
  forall w jar jar' r,
    for_cookies_jar false l w jar = (jar', Ok r) ->
    for_cookies_jar false r.2 w jar = (jar', Ok r).
Proof.
  induction l as [|c l IH]; intros w jar jar' r H.
  - inversion H; subst. reflexivity.
  - destruct c; try discriminate. cbn [for_cookies_jar] in H.
    destruct (RequestsCookieJar.set _ jar) as [j1|] eqn:Eset; [|discriminate].
    destruct (for_cookies_jar false l _ j1) as [j2 [r2|]] eqn:E; [|discriminate].
    inversion H; subst. cbn [snd fst for_cookies_jar].
    rewrite mark_cookie_twice. cbn [fst snd]. rewrite Eset.
    assert (Hw : (mark_cookie false w d).1 = w).
    { rewrite mark_cookie_flag. simpl. apply orb_false_r. }
    rewrite Hw in E. apply IH in E. rewrite E. reflexivity.
Qed.

Lemma set_get_same {V : Type} (k : string) (v : V) (d : list (string * V)) :
  PyDict.get k d = Some v -> PyDict.set k v d = d.
Proof.
  induction d as [|[k0 v0] d IH]; simpl; [discriminate|].
  destruct (String.eqb k0 k) eqn:E.
  - apply String.eqb_eq in E. intros H. inversion H. now subst.
  - intros H. now rewrite IH.
Qed.

(** X12: the data a load returns loads to the same session and comes back
    unchanged: the records a list-shaped load rewrote in place (a null
    domain turned into the explicit-none marker) are read as they were
    written. *)
Theorem load_is_stable (data data1 : dict) (s s1 : Session) :
  pre_process_data data s = (s1, Ok data1) ->
  pre_process_data data1 s = (s1, Ok data1).
Proof.
  intros H.
  destruct (PyDict.get "cookies" data) as [[| | | | |l|]|] eqn:Ec;
    try (assert (data1 = data) as ->;
         [ revert H; unfold pre_process_data; run; rewrite Ec;
           destruct (load_cookies data s) as [s' [r|]]; [|discriminate];
           destruct (issue_warning r.1 s') as [s'' [[]|]]; [|discriminate];
           simpl; congruence
         | exact H ]).
  rewrite <- (set_get_same _ _ _ Ec) in H. rewrite load_list_shaped in H.
  destruct (for_cookies_jar false l false (cookie_jar s)) as [jar [r|]] eqn:E;
    [|discriminate].
  inversion H; subst. rewrite load_list_shaped.
  now rewrite (for_cookies_jar_again _ _ _ _ _ E).
Qed.

(** ** More on where a session lives *)

Lemma split_nonempty (sep : ascii) (x : string) : Str.split sep x <> [].
Proof.
  destruct x as [|c x]; simpl; [discriminate|].
  destruct (Ascii.eqb c sep); [discriminate|].
  destruct (Str.split sep x); discriminate.
Qed.

Lemma contains_char_cons (a c : ascii) (w : string) :
  Ascii.eqb c a = false ->
  Str.contains (String a "") (String c w) = Str.contains (String a "") w.
Proof.
  intros H.
  change (Str.contains (String a "") (String c w))
    with ((if ascii_dec a c then String.prefix "" w else false)
          || Str.contains (String a "") w).
  destruct (ascii_dec a c) as [->|_]; [|reflexivity].
  now rewrite Ascii.eqb_refl in H.
Qed.

(** [x.split(':')[0]] is the part of [x] before its first colon. *)
Lemma split_head_colon (x : string) :
  Str.contains ":" (Str.split_head ":" x) = false
  /\ (x = Str.split_head ":" x
      \/ exists rest, x = Str.split_head ":" x +:+ ":" +:+ rest).
Proof.
  unfold Str.split_head. induction x as [|c x [IH1 IH2]].
  - split; [reflexivity | now left].
  - cbn [Str.split]. destruct (Ascii.eqb c ":") eqn:E.
    + apply Ascii.eqb_eq in E. subst. split; [reflexivity|].
      right. exists x. reflexivity.
    + pose proof (split_nonempty ":" x) as Hne.
      destruct (Str.split ":" x) as [|w ws]; [congruence|]. cbn [hd] in *.
      split.
      * now rewrite contains_char_cons.
      * destruct IH2 as [->|[rest ->]]; [now left|].
        right. exists rest. now rewrite <- append_cons.
Qed.

Lemma replace_colon_free (x : string) :
  Str.contains ":" (Str.replace ":" "_" x) = false.
Proof.
  induction x as [|c x IH]; [reflexivity|].
  cbn [Str.replace]. destruct (Ascii.eqb c ":") eqn:E.
  - now rewrite contains_char_cons.
  - now rewrite contains_char_cons.
Qed.

(** X13: [bound_host] holds no colon and is the host the session was asked
    for, up to its first colon; the directory of a named session holds no
    colon either. *)
Theorem bound_host_is_colon_free_prefix (url_as_host expanduser : string -> string)
    (env : Environment) (config_dir : Path.t) (session_name : string)
    (host : option string) (url : string) (refactor_mode : bool) :
  Str.contains ":"
    (bound_host (get_httpie_session url_as_host expanduser env config_dir
                   session_name host url refactor_mode)) = false
  /\ (bound_hostname_of url_as_host host url
      = bound_host (get_httpie_session url_as_host expanduser env config_dir
                      session_name host url refactor_mode)
      \/ exists port,
           bound_hostname_of url_as_host host url
           = bound_host (get_httpie_session url_as_host expanduser env
                           config_dir session_name host url refactor_mode)
             +:+ ":" +:+ port)
  /\ (is_anonymous_session session_name = false ->
      exists hostname,
        Str.contains ":" hostname = false
        /\ path (get_httpie_session url_as_host expanduser env config_dir
                   session_name host url refactor_mode)
           = config_dir // "sessions" // hostname // (session_name +:+ ".json")).
Proof.
  destruct (split_head_colon (bound_hostname_of url_as_host host url)) as [H1 H2].
  split; [exact H1|]. split; [exact H2|].
  intros Hnamed. eexists. split; [apply replace_colon_free|].
  now apply named_session_location.
Qed.

(** ** The [auth] getter *)

Section AuthFacts.
Variable AuthBase : Type.
Variable get_auth_plugin : Any -> result (AuthPlugin AuthBase).
Variable parse_auth : Any -> result (Any * Any).

Local Abbreviation read_auth := (auth_property AuthBase get_auth_plugin parse_auth).

(** X14: a descriptor the setter accepted is read back in the new style:
    the getter takes the credentials from its [raw_auth] alone (parsed when
    the plugin asks for it), never looks for [username] and [password],
    and leaves the session as it is. *)
Theorem auth_set_then_get (descriptor : dict) (s s' : Session) :
  set_auth descriptor s = (s', Ok tt) ->
  exists type raw_auth,
    PyDict.get "type" descriptor = Some type
    /\ PyDict.get "raw_auth" descriptor = Some raw_auth
    /\ read_auth s'
       = (s', new_style_auth AuthBase get_auth_plugin parse_auth type raw_auth).
Proof.
  unfold set_auth. destruct (same_keys _ _) eqn:E; [|discriminate].
  intros H. inversion H; subst.
  pose proof (proj1 (same_keys_spec _ _) E) as Hkeys.
  destruct (get_In "type" descriptor) as (type & Htype & Hin);
    [apply (proj2 (Hkeys "type")); simpl; auto|].
  destruct (get_In "raw_auth" descriptor) as (raw_auth & Hraw & _);
    [apply (proj2 (Hkeys "raw_auth")); simpl; auto|].
  exists type, raw_auth. split; [exact Htype|]. split; [exact Hraw|].
  unfold auth_property, new_style_auth. cbn [auth with_auth].
  destruct descriptor as [|kv d]; [destruct Hin|]. cbn [truthy negb].
  rewrite Htype, Hraw.
  destruct (negb (truthy type)); [reflexivity|].
  destruct (get_auth_plugin type) as [plugin|]; [|reflexivity].
  destruct (auth_parse AuthBase plugin); [|reflexivity].
  destruct (parse_auth raw_auth); reflexivity.
Qed.

(** X15: for a stored descriptor of the old style (a type naming a plugin
    the registry knows, no [raw_auth]) the getter succeeds exactly when
    both [username] and [password] are stored, and then hands them to the
    plugin as they are, whatever the plugin's [auth_parse]; a missing one
    raises [KeyError]. *)
Theorem legacy_auth_needs_both_credentials (s : Session) (type : Any)
    (plugin : AuthPlugin AuthBase) :
  PyDict.get "type" (auth s) = Some type ->
  truthy type = true ->
  get_auth_plugin type = Ok plugin ->
  PyDict.get "raw_auth" (auth s) = None ->
  (forall username password,
      PyDict.get "username" (auth s) = Some username ->
      PyDict.get "password" (auth s) = Some password ->
      read_auth s
      = (s, Ok (Some (get_auth AuthBase plugin None username password))))
  /\ (PyDict.get "username" (auth s) = None
      \/ PyDict.get "password" (auth s) = None ->
      read_auth s = (s, Raise KeyError)).
Proof.
  intros Htype Htruthy Hplugin Hraw. unfold auth_property.
  destruct (auth s) as [|kv d] eqn:Ea; [discriminate|]. cbn [truthy negb].
  rewrite Htype, Htruthy, Hplugin, Hraw. cbn [negb]. split.
  - intros username password -> ->. reflexivity.
  - intros [-> | ->]; [reflexivity|].
    now destruct (PyDict.get "username" (kv :: d)).
Qed.
End AuthFacts.

(** ** The saved record of a cookie *)

(** X16: the record of a cookie always has the six kept options as keys, in
    their order; its domain is null exactly when the cookie is the
    explicit-none marker, and is the cookie's domain otherwise, also for a
    cookie tagged is_explicit_none whose domain is not empty. *)
Theorem materialized_record (c : Cookie.t) :
  PyDict.keys (materialize_cookie c) = KEPT_COOKIE_OPTIONS
  /\ PyDict.get "domain" (materialize_cookie c)
     = Some (if is_marker c then None_ else Str (Cookie.domain c))
  /\ forall option,
       In option KEPT_COOKIE_OPTIONS -> option <> "domain" ->
       PyDict.get option (materialize_cookie c) = Some (getattr c option).
Proof.
  unfold materialize_cookie, is_marker. rewrite eqb_empty.
  destruct c as [n v d p e sec r]. unfold Cookie.is_explicit_none. simpl.
  destruct (match PyDict.get "is_explicit_none" r with
            | Some v0 => truthy v0 | None => false end);
    destruct d as [|a d]; simpl; (split; [reflexivity|]; split; [reflexivity|]);
    intros option H Hne;
    repeat (destruct H as [<-|H]; [try reflexivity; congruence|]);
    destruct H.
Qed.

(** * Worked instances of the further properties *)


Lemma merged_cookies_have_a_path_witness :
  In (Cookie.mk "sid" (Some "abc") "" "/" None false [("HttpOnly", None_)])
    (cookie_jar (update_headers one_morsel [("Cookie", HStr "abc")]
                   example_session).1)
  /\ (In (Cookie.mk "sid" (Some "abc") "" "/" None false [("HttpOnly", None_)])
        (cookie_jar example_session)
      \/ Cookie.path (Cookie.mk "sid" (Some "abc") "" "/" None false
                        [("HttpOnly", None_)]) <> "").
Proof.
  split; [left; reflexivity|].
  apply (merged_cookies_have_a_path one_morsel [("Cookie", HStr "abc")]
           example_session).
  left. reflexivity.
Defined.


Lemma agent_session_names : distinct_names (headers agent_session).
Proof. repeat constructor. intros []. Defined.

Lemma merge_leaves_other_names_witness :
  PyDict.get "User-Agent"
    (headers (update_headers one_morsel
                [("X-Token", HStr "t"); ("Cookie", HStr "abc")] agent_session).1)
  = Some "MyClient/1.0".
Proof.
  apply (merge_leaves_other_names one_morsel
           [("X-Token", HStr "t"); ("Cookie", HStr "abc")] agent_session
           "User-Agent" agent_session_names).
  intros item [<-|[<-|[]]] H; [reflexivity | discriminate].
Defined.

Lemma mapping_keeps_last_cookie_of_a_name_witness :
  exists mapping,
    saved_cookies legacy_data loaded_session = Some (Dict mapping)
    /\ PyDict.get "t" mapping
       = Some (Dict [("expires", None_); ("path", Str "/"); ("value", Str "2");
                     ("domain", Str "example.com"); ("secure", Bool false)])
    /\ PyDict.get "other" mapping = None.
Proof.
  destruct (mapping_keeps_last_cookie_of_a_name legacy_data loaded_session eq_refl)
    as (mapping & Hsaved & _ & Hget).
  exists mapping. split; [exact Hsaved|]. split.
  - rewrite Hget. reflexivity.
  - rewrite Hget. reflexivity.
Defined.



Lemma load_mapping_with_bad_entry_witness :
  pre_process_data [("cookies", Dict [("sid", Dict [("value", Str "1")]);
                                       ("t", Str "2")])] example_session
  = (example_session, Raise TypeError).
Proof.
  apply (load_mapping_with_bad_entry
           [("cookies", Dict [("sid", Dict [("value", Str "1")]); ("t", Str "2")])]
           [("sid", Dict [("value", Str "1")]); ("t", Str "2")]
           example_session "t" (Str "2") eq_refl).
  - right. left. reflexivity.
  - discriminate.
Defined.

Lemma load_aborts_at_malformed_record_witness :
  pre_process_data
    (PyDict.set "cookies" (List ([Dict null_domain_record] ++ Str "sid=1" :: []))
       []) example_session
  = ((pre_process_data
        (PyDict.set "cookies" (List [Dict null_domain_record]) [])
        example_session).1,
     Raise AttributeError).
Proof.
  apply (load_aborts_at_malformed_record [] [Dict null_domain_record] []
           (Str "sid=1") example_session _
           [("cookies", List [Dict (explicit_none null_domain_record)])] eq_refl).
  discriminate.
Defined.

Lemma load_is_stable_witness :
  exists data1,
    pre_process_data current_data example_session = (loaded_session, Ok data1)
    /\ pre_process_data data1 example_session = (loaded_session, Ok data1)
    /\ data1 <> current_data.
Proof.
  eexists. split; [reflexivity|]. split.
  - apply (load_is_stable current_data _ example_session loaded_session eq_refl).
  - discriminate.
Defined.

Lemma bound_host_is_colon_free_prefix_witness :
  is_anonymous_session "work" = false
  /\ bound_host
       (get_httpie_session (fun _ => "") (expanduser_with_home "/home/u")
          (mkEnvironment []) (Path.of_str "/home/u/.config/httpie")
          "work" (Some "api.example.com:443") "" false)
     = "api.example.com"
  /\ exists hostname,
       Str.contains ":" hostname = false
       /\ path
            (get_httpie_session (fun _ => "") (expanduser_with_home "/home/u")
               (mkEnvironment []) (Path.of_str "/home/u/.config/httpie")
               "work" (Some "api.example.com:443") "" false)
          = Path.of_str "/home/u/.config/httpie"
              // "sessions" // hostname // ("work" +:+ ".json").
Proof.
  split; [reflexivity|]. split; [reflexivity|].
  exact (proj2 (proj2 (bound_host_is_colon_free_prefix (fun _ => "")
                         (expanduser_with_home "/home/u") (mkEnvironment [])
                         (Path.of_str "/home/u/.config/httpie") "work"
                         (Some "api.example.com:443") "" false)) eq_refl).
Defined.

Lemma auth_set_then_get_witness :
  exists s',
    set_auth [("type", Str "basic"); ("raw_auth", Str "user:pass")] example_session
    = (s', Ok tt)
    /\ auth_property (Any * Any) pair_registry parse_user_pass s'
       = (s', Ok (Some (Str "user", Str "pass"))).
Proof.
  eexists. split; [reflexivity|].
  destruct (auth_set_then_get (Any * Any) pair_registry parse_user_pass
              [("type", Str "basic"); ("raw_auth", Str "user:pass")]
              example_session _ eq_refl)
    as (type & raw_auth & Htype & Hraw & Hread).
  rewrite Hread. inversion Htype. inversion Hraw. reflexivity.
Defined.

Lemma legacy_auth_needs_both_credentials_witness :
  auth_property (Any * Any) pair_registry parse_user_pass legacy_auth_session
  = (legacy_auth_session, Ok (Some (Str "u", Str "p")))
  /\ auth_property (Any * Any) pair_registry parse_user_pass
       (with_auth [("type", Str "basic"); ("username", Str "u")] example_session)
     = (with_auth [("type", Str "basic"); ("username", Str "u")] example_session,
        Raise KeyError).
Proof.
  split.
  - apply (proj1 (legacy_auth_needs_both_credentials (Any * Any) pair_registry
                    parse_user_pass legacy_auth_session (Str "basic") pair_plugin
                    eq_refl eq_refl eq_refl eq_refl) (Str "u") (Str "p")
             eq_refl eq_refl).
  - apply (proj2 (legacy_auth_needs_both_credentials (Any * Any) pair_registry
                    parse_user_pass
                    (with_auth [("type", Str "basic"); ("username", Str "u")]
                       example_session)
                    (Str "basic") pair_plugin eq_refl eq_refl eq_refl eq_refl)).
    right. reflexivity.
Defined.

Lemma materialized_record_witness :
  PyDict.get "value"
    (materialize_cookie
       (Cookie.mk "sid" (Some "1") "example.com" "/" None false
          [("is_explicit_none", Bool true)]))
  = Some (Str "1")
  /\ PyDict.get "domain"
       (materialize_cookie
          (Cookie.mk "sid" (Some "1") "example.com" "/" None false
             [("is_explicit_none", Bool true)]))
     = Some (Str "example.com").
Proof.
  destruct (materialized_record
              (Cookie.mk "sid" (Some "1") "example.com" "/" None false
                 [("is_explicit_none", Bool true)])) as (_ & Hdomain & Hother).
  split; [|exact Hdomain].
  apply (Hother "value").
  - do 3 right. left. reflexivity.
  - discriminate.
Defined.

(** ** Header names stay distinct *)

Section MergeNames.
Variable SimpleCookie : string -> list Morsel.t.

Lemma lower_keys_popall {V : Type} (name : string) (h : list (string * V)) x :
  In x (map (fun kv => Str.lower kv.1) (HTTPHeadersDict.popall name h)) ->
  In x (map (fun kv => Str.lower kv.1) h) /\ x <> Str.lower name.
Proof.
  unfold HTTPHeadersDict.popall. rewrite !in_map_iff.
  intros (kv & <- & Hin). apply List.filter_In in Hin as [Hin Hne]. split.
  - exists kv. now split.
  - apply negb_true_iff in Hne. unfold HTTPHeadersDict.same_name in Hne.
    intros E. rewrite E, String.eqb_refl in Hne. discriminate.
Qed.

Lemma distinct_popall {V : Type} (name : string) (h : list (string * V)) :
  distinct_names h -> distinct_names (HTTPHeadersDict.popall name h).
Proof.
  unfold distinct_names, HTTPHeadersDict.popall.
  induction h as [|[k v] h IH]; simpl; intros H; [constructor|].
  apply List.NoDup_cons_iff in H as [Hnotin H].
  destruct (negb (HTTPHeadersDict.same_name k name)); simpl; [|now apply IH].
  constructor; [|now apply IH].
  intros Hin. apply Hnotin. now apply (lower_keys_popall name h).
Qed.

Lemma lower_keys_setitem {V : Type} (name : string) (v : V)
    (h : list (string * V)) x :
  In x (map (fun kv => Str.lower kv.1) (HTTPHeadersDict.setitem name v h)) ->
  x = Str.lower name \/ In x (map (fun kv => Str.lower kv.1) h).
Proof.
  induction h as [|[k v0] h IH]; simpl.
  - intros [H|[]]. now left.
  - destruct (HTTPHeadersDict.same_name k name); simpl.
    + intros [H|H]; [now left|]. right. right.
      now apply (lower_keys_popall name h).
    + intros [H|H]; [right; now left|].
      destruct (IH H); [now left | right; now right].
Qed.

Lemma distinct_setitem {V : Type} (name : string) (v : V) (h : list (string * V)) :
  distinct_names h -> distinct_names (HTTPHeadersDict.setitem name v h).
Proof.
  unfold distinct_names. induction h as [|[k v0] h IH]; simpl; intros H.
  - repeat constructor. intros [].
  - apply List.NoDup_cons_iff in H as [Hnotin H].
    destruct (HTTPHeadersDict.same_name k name) eqn:E; simpl.
    + constructor; [|now apply distinct_popall].
      intros Hin. apply lower_keys_popall in Hin as [_ Hne]. congruence.
    + constructor; [|now apply IH].
      intros Hin. apply lower_keys_setitem in Hin as [Hin|Hin]; [|tauto].
      unfold HTTPHeadersDict.same_name in E. rewrite Hin, String.eqb_refl in E.
      discriminate.
Qed.

(** With names distinct up to case, [dict(h)] is [h] entry for entry. *)
Lemma to_dict_distinct {V : Type} (h : list (string * V)) :
  distinct_names h -> HTTPHeadersDict.to_dict h = h.
Proof.
  intros Hd. unfold HTTPHeadersDict.to_dict.
  assert (H : forall rest pre,
             h = pre ++ rest ->
             fold_left
               (fun d k => match HTTPHeadersDict.getone k h with
                           | Some v => PyDict.set k v d
                           | None => d
                           end) (map fst rest) pre = h).
  { induction rest as [|[k v] rest IH]; intros pre E; simpl.
    - now rewrite app_nil_r in E.
    - assert (Hin : In (k, v) h) by (rewrite E; apply in_or_app; right; now left).
      rewrite getone_first_entry, (distinct_first_entry k v h Hd Hin). simpl.
      rewrite set_fresh.
      + apply IH. now rewrite <- app_assoc.
      + unfold distinct_names in Hd. rewrite E, map_app in Hd. simpl in Hd.
        apply List.NoDup_remove_2 in Hd. intros Hk. apply Hd.
        apply in_or_app. left. unfold PyDict.keys in Hk.
        apply in_map_iff in Hk as ([k' v'] & Hk' & Hin').
        simpl in Hk'. subst k'.
        now apply (in_map (fun kv : string * V => Str.lower kv.1) pre (k, v')). }
  now apply (H h []).
Qed.

Lemma distinct_fold (l : list (string * HeaderValue)) :
  forall h : list (string * string),
    distinct_names h ->
    distinct_names
      (fold_left
         (fun h item => HTTPHeadersDict.setitem item.1 (decode item.2) h) l h).
Proof.
  induction l as [|item l IH]; intros h H; [exact H|].
  simpl. now apply IH, distinct_setitem.
Qed.

(** X17: the merge keeps the stored header names distinct up to case. *)
Theorem merge_keeps_names_distinct
    (request_headers : list (string * HeaderValue)) (s : Session) :
  distinct_names (headers s) ->
  distinct_names (headers (update_headers SimpleCookie request_headers s).1).
Proof.
  intros H. unfold update_headers. cbn [fst headers with_headers].
  rewrite merge_headers_fold. cbn [st_headers].
  rewrite to_dict_distinct; now apply distinct_fold.
Qed.

(** X18: when every incoming header is unset or dropped, the merge leaves
    the session as it was.  The stored names are distinct up to case. *)
Theorem merge_of_nothing
    (request_headers : list (string * HeaderValue)) (s : Session) :
  distinct_names (headers s) ->
  (forall item, In item request_headers ->
                is_unset item = true \/ dropped item = true) ->
  (update_headers SimpleCookie request_headers s).1 = s.
Proof.
  intros Hd Hall. unfold update_headers. cbn [fst].
  rewrite merge_headers_fold, merge_jar_fold. cbn [st_headers st_cookie_jar].
  rewrite !filter_none.
  - simpl. unfold headers_property, HTTPHeadersDict.of_dict.
    rewrite to_dict_distinct by exact Hd. now destruct s.
  - intros item Hin. unfold consumed.
    destruct (Hall item Hin) as [H|H]; [now rewrite H, andb_false_r|].
    destruct (is_cookie_header item) eqn:E; [|reflexivity].
    unfold is_cookie_header in E. apply String.eqb_eq in E.
    pose proof (cookie_kept item E) as Hk. unfold kept in Hk.
    rewrite H in Hk. discriminate.
  - intros item Hin. unfold storable.
    destruct (Hall item Hin) as [H|H]; rewrite H; simpl;
      [reflexivity | now rewrite andb_false_r].
Qed.
End MergeNames.

Lemma merge_keeps_names_distinct_witness :
  distinct_names
    (headers (update_headers one_morsel
                [("user-agent", HStr "curl/8"); ("X-Token", HStr "t")]
                agent_session).1).
Proof.
  apply (merge_keeps_names_distinct one_morsel
           [("user-agent", HStr "curl/8"); ("X-Token", HStr "t")]
           agent_session agent_session_names).
Defined.

Lemma merge_of_nothing_witness :
  (update_headers one_morsel
     [("Content-Type", HStr "text/plain"); ("Accept", HNone);
      ("User-Agent", HStr "HTTPie/3.2.1")] agent_session).1
  = agent_session.
Proof.
  apply (merge_of_nothing one_morsel
           [("Content-Type", HStr "text/plain"); ("Accept", HNone);
            ("User-Agent", HStr "HTTPie/3.2.1")]
           agent_session agent_session_names).
  intros item [<-|[<-|[<-|[]]]]; [right | left | right]; reflexivity.
Defined.
